(** * ust_download_cache: a shallow embedding of [USTDownloadCache]

    The Python module [ust_download_cache.py] keeps a disk cache of
    downloaded JSON documents, indexed by URL in [file_cache.json].  This
    file embeds the class in Rocq as a state-and-exception monad over an
    explicit model of the file system, the clock and the object's
    attributes, and proves the properties of the cache life cycle.

    Conventions.
    - Python values that come out of [json.load] are the inductive [json];
      a Python [dict] is an insertion-ordered association list.
    - A raised exception is the outcome [Raise e]; the state reached when
      the exception was raised is kept, as in Python.
    - The [json], [bz2], [pycurl], [uuid] modules and the text decoding done
      by [open(path)] are library code: they are the fields of [Libs].
    - Calls to the logger do not touch the modelled state and are left out.
    - Directories are not modelled: a path is a key of the file map. *)

From Stdlib Require Import Strings.Byte.
From stdpp Require Import base strings pretty list gmap.

Local Open Scope Z_scope.

#[local] Set Warnings "-register-all".

(** ** Python values *)

Inductive json : Type :=
| JNull
| JBool (b : bool)
| JInt (z : Z)
| JStr (s : string)
| JList (l : list json)
| JDict (d : list (string * json)).

(** What [f.read()] returns: [str] for a text-mode file, [bytes] for a
    binary one. *)
Inductive file_contents : Type :=
| PyStr (s : string)
| PyBytes (b : list byte).

Inductive exn : Type :=
| FileNotFoundError (p : string)
| OSError (msg : string)
| EOFError
| TypeError
| KeyError (k : string)
| AttributeError (a : string)
| JSONDecodeError
| UnicodeDecodeError
| CurlError (msg : string)
| Exception_ (msg : string).

Inductive result (A : Type) : Type :=
| Ok (a : A)
| Raise (e : exn).
Arguments Ok {A} a.
Arguments Raise {A} e.

(** ** Python [dict] as an insertion-ordered association list *)

Module PyDict.
Section Ops.
Context {V : Type}.

Fixpoint get (k : string) (d : list (string * V)) : option V :=
match d with
| [] => None
| (k', v) :: d' => if String.eqb k k' then Some v else get k d'
end.

Definition mem (k : string) (d : list (string * V)) : bool :=
match get k d with Some _ => true | None => false end.

(** [d[k] = v]: an existing key keeps its position, a new one goes last. *)
Fixpoint set (k : string) (v : V) (d : list (string * V)) : list (string * V) :=
match d with
| [] => [(k, v)]
| (k', v') :: d' =>
    if String.eqb k k' then (k', v) :: d' else (k', v') :: set k v d'
end.

(** [del d[k]] on a key that is present. *)
Fixpoint del (k : string) (d : list (string * V)) : list (string * V) :=
match d with
| [] => []
| (k', v') :: d' => if String.eqb k k' then d' else (k', v') :: del k d'
end.

Definition keys (d : list (string * V)) : list string := d.*1.
End Ops.
End PyDict.

(** ** [class CachedFile] *)

Record CachedFile : Type := mkCachedFile {
  url : string;
  path : json;
  timestamp : json;
  ttl : json;
}.

(** ** The libraries the module calls *)

Record Libs : Type := mkLibs {
  (** [json.loads] / [json.load]; [None] is [json.JSONDecodeError]. *)
  json_loads : file_contents -> option json;
  (** [json.dump(..., indent=4)], as the bytes written to the file. *)
  json_dumps : json -> list byte;
  (** decoding done by a text-mode [read()]; [None] is [UnicodeDecodeError]. *)
  text_decode : list byte -> option string;
  (** [bz2.open(path, "rb").read()] on a file with these bytes. *)
  bz2_decompress : list byte -> exn + list byte;
  (** [curl.perform()]: the bytes written to the target, and the error if
      the transfer failed. *)
  curl_perform : string -> list byte * option exn;
  (** the n-th value of [str(uuid.uuid4())]. *)
  uuid4 : nat -> string;
  (** [str(ex)], used by ["%s" % ex]. *)
  exn_str : exn -> string;
}.

(** ** State: the world and the attributes of [self] *)

Inductive event : Type :=
| EvExists (p : string)
| EvOpenRead (p : string)
| EvRemove (p : string)
| EvDownload (u p : string)
| EvDump (p : string).

Record state : Type := mkState {
  fs : gmap string (list byte);
  now : Z;
  uuid_count : nat;
  events : list event;
  cache_dir : string;
  cache_metadata_file : option string;
  file_cache : list (string * CachedFile);
}.

Definition set_fs (f : gmap string (list byte)) (st : state) : state :=
  mkState f (now st) (uuid_count st) (events st) (cache_dir st)
          (cache_metadata_file st) (file_cache st).

Definition set_uuid_count (n : nat) (st : state) : state :=
  mkState (fs st) (now st) n (events st) (cache_dir st)
          (cache_metadata_file st) (file_cache st).

Definition set_events (l : list event) (st : state) : state :=
  mkState (fs st) (now st) (uuid_count st) l (cache_dir st)
          (cache_metadata_file st) (file_cache st).

Definition set_file_cache (c : list (string * CachedFile)) (st : state) : state :=
  mkState (fs st) (now st) (uuid_count st) (events st) (cache_dir st)
          (cache_metadata_file st) c.

(** ** The monad *)

Definition M (A : Type) : Type := state -> result A * state.

Definition ret {A} (a : A) : M A := fun st => (Ok a, st).

Definition bind {A B} (m : M A) (k : A -> M B) : M B :=
  fun st =>
    match m st with
    | (Ok a, st') => k a st'
    | (Raise e, st') => (Raise e, st')
    end.

Definition raise {A} (e : exn) : M A := fun st => (Raise e, st).

(** [try: m except Exception as ex: h ex] *)
Definition try_except {A} (m : M A) (h : exn -> M A) : M A :=
  fun st =>
    match m st with
    | (Ok a, st') => (Ok a, st')
    | (Raise e, st') => h e st'
    end.

Definition get_state : M state := fun st => (Ok st, st).
Definition modify (f : state -> state) : M unit := fun st => (Ok tt, f st).

Declare Scope py_scope.
Delimit Scope py_scope with py.
Notation "x <- c1 ;; c2" := (bind c1 (fun x => c2))
  (at level 100, c1 at next level, right associativity) : py_scope.
Notation "c1 ;; c2" := (bind c1 (fun _ => c2))
  (at level 100, right associativity) : py_scope.
Local Open Scope py_scope.

Definition log (e : event) : M unit :=
  modify (fun st => set_events (events st ++ [e]) st).

Definition of_option {A} (o : option A) (e : exn) : M A :=
  match o with Some a => ret a | None => raise e end.

(** ** Python operators on [json] values *)

Fixpoint is_substring (s t : string) : bool :=
  String.prefix s t ||
  match t with
  | EmptyString => false
  | String _ t' => is_substring s t'
  end.

Definition is_str (k : string) (j : json) : bool :=
  match j with JStr s => String.eqb k s | _ => false end.

(** [k in j] for a [str] [k]. *)
Definition py_contains (k : string) (j : json) : result bool :=
  match j with
  | JDict d => Ok (PyDict.mem k d)
  | JList l => Ok (existsb (is_str k) l)
  | JStr s => Ok (is_substring k s)
  | JNull | JBool _ | JInt _ => Raise TypeError
  end.

(** [j[k]] for a [str] [k]. *)
Definition py_getitem (j : json) (k : string) : result json :=
  match j with
  | JDict d =>
      match PyDict.get k d with Some v => Ok v | None => Raise (KeyError k) end
  | _ => Raise TypeError
  end.

(** [j.items()] *)
Definition py_items (j : json) : result (list (string * json)) :=
  match j with
  | JDict d => Ok d
  | _ => Raise (AttributeError "items")
  end.

(** The integer a value stands for in [-] and [>]: [bool] is a subclass
    of [int]. *)
Definition py_int (j : json) : result Z :=
  match j with
  | JInt z => Ok z
  | JBool b => Ok (if b then 1 else 0)
  | _ => Raise TypeError
  end.

Definition lift {A} (r : result A) : M A := fun st => (r, st).

Fixpoint ends_with_slash (a : string) : bool :=
  match a with
  | EmptyString => false
  | String c EmptyString => String.eqb (String c EmptyString) "/"
  | String _ a' => ends_with_slash a'
  end.

(** [os.path.join(a, b)] *)
Definition os_path_join (a b : string) : string :=
  if String.prefix "/" b then b
  else if String.eqb a EmptyString then b
  else if ends_with_slash a then a +:+ b
  else a +:+ "/" +:+ b.

(** ** Primitive file operations *)

(** [open(p)] / [open(p, "rb")] followed by [read()].  An [int] path is a
    file descriptor; the model has none open. *)
Definition open_read (p : json) : M (list byte) :=
  match p with
  | JStr s =>
      log (EvOpenRead s) ;;
      st <- get_state ;;
      of_option (fs st !! s) (FileNotFoundError s)
  | JInt _ | JBool _ => raise (OSError "Bad file descriptor")
  | _ => raise TypeError
  end.

(** [os.remove(p)] *)
Definition os_remove (p : json) : M unit :=
  match p with
  | JStr s =>
      log (EvRemove s) ;;
      st <- get_state ;;
      match fs st !! s with
      | Some _ => modify (fun st => set_fs (delete s (fs st)) st)
      | None => raise (FileNotFoundError s)
      end
  | _ => raise TypeError
  end.

(** [os.path.exists(p)] *)
Definition os_path_exists (p : string) : M bool :=
  log (EvExists p) ;;
  st <- get_state ;;
  ret (match fs st !! p with Some _ => true | None => false end).

(** [int(time.time())] *)
Definition time_time : M Z := st <- get_state ;; ret (now st).

Fixpoint bytes_eqb (a b : list byte) : bool :=
  match a, b with
  | [], [] => true
  | x :: a', y :: b' => Byte.eqb x y && bytes_eqb a' b'
  | _, _ => false
  end.

(** [b"BZ"] *)
Definition bz_magic : list byte := [x42; x5a].

#[local] Instance byte_eq_decision : EqDecision byte := Byte.byte_eq_dec.

(** ** [CachedFile.is_expired] *)

Definition is_expired (cf : CachedFile) : M bool :=
  n <- time_time ;;
  t <- lift (py_int (timestamp cf)) ;;
  l <- lift (py_int (ttl cf)) ;;
  ret (Z.ltb l (n - t)).

(** ** [CacheJSONEncoder]: a [CachedFile] is dumped as its [__dict__] *)

Definition encode_cached_file (cf : CachedFile) : json :=
  JDict [("url", JStr (url cf)); ("path", path cf);
         ("timestamp", timestamp cf); ("ttl", ttl cf)]%string.

Definition encode_file_cache (c : list (string * CachedFile)) : json :=
  JDict (map (fun kv => (kv.1, encode_cached_file kv.2)) c).

(** ** [class USTDownloadCache] *)

Section USTDownloadCache.
Context (L : Libs).

Definition save_cache : M unit :=
  st <- get_state ;;
  match cache_metadata_file st with
  | None => ret tt
  | Some p =>
      log (EvDump p) ;;
      modify (fun st =>
        set_fs (<[p := json_dumps L (encode_file_cache (file_cache st))]> (fs st)) st)
  end.

(** One turn of the [for url, cached_file in cache_contents.items()] loop. *)
Definition load_item (kv : string * json) : M unit :=
  p <- lift (py_getitem kv.2 "path") ;;
  t <- lift (py_getitem kv.2 "timestamp") ;;
  l <- lift (py_getitem kv.2 "ttl") ;;
  modify (fun st =>
    set_file_cache (PyDict.set kv.1 (mkCachedFile kv.1 p t l) (file_cache st)) st).

Fixpoint load_items (items : list (string * json)) : M unit :=
  match items with
  | [] => ret tt
  | kv :: items' => load_item kv ;; load_items items'
  end.

Definition _load_file_cache : M unit :=
  modify (set_file_cache []) ;;
  st <- get_state ;;
  match cache_metadata_file st with
  | None => raise TypeError
  | Some p =>
      b <- os_path_exists p ;;
      if b then
        c <- open_read (JStr p) ;;
        s <- of_option (text_decode L c) UnicodeDecodeError ;;
        cache_contents <- of_option (json_loads L (PyStr s)) JSONDecodeError ;;
        items <- lift (py_items cache_contents) ;;
        load_items items
      else ret tt
  end.

Definition _is_bz2 (p : json) : M bool :=
  c <- open_read p ;;
  ret (bytes_eqb (take 2 c) bz_magic).

Definition _read_cached_file (p : json) : M file_contents :=
  b <- _is_bz2 p ;;
  if b then
    try_except
      (c <- open_read p ;;
       match bz2_decompress L c with
       | inr d => ret (PyBytes d)
       | inl ex => raise ex
       end)
      (fun ex =>
         raise (Exception_ ("Failed to decompress bz2 archive: " +:+ exn_str L ex)))
  else
    c <- open_read p ;;
    s <- of_option (text_decode L c) UnicodeDecodeError ;;
    ret (PyStr s).

Definition _get_file_metadata (p : json) : M json :=
  file_contents <- _read_cached_file p ;;
  json_data <- of_option (json_loads L file_contents) JSONDecodeError ;;
  b <- lift (py_contains "metadata" json_data) ;;
  if negb b then raise (Exception_ "Error parsing metadata from file.")
  else lift (py_getitem json_data "metadata").

Definition _download (download_url filename : string) : M unit :=
  try_except
    (log (EvDownload download_url filename) ;;
     modify (fun st => set_fs (<[filename := []]> (fs st)) st) ;;
     let '(written, err) := curl_perform L download_url in
     modify (fun st => set_fs (<[filename := written]> (fs st)) st) ;;
     match err with
     | None => ret tt
     | Some ex => raise ex
     end)
    (fun ex =>
       raise (Exception_ ("Downloading " +:+ download_url +:+ " failed: "
                          +:+ exn_str L ex))).

Definition _download_and_cache_file (u : string) : M unit :=
  st <- get_state ;;
  let file_id := uuid4 L (uuid_count st) in
  modify (set_uuid_count (S (uuid_count st))) ;;
  let downloaded_file_path := os_path_join (cache_dir st) file_id in
  _download u downloaded_file_path ;;
  metadata <- _get_file_metadata (JStr downloaded_file_path) ;;
  t <- lift (py_getitem metadata "timestamp") ;;
  l <- lift (py_getitem metadata "ttl") ;;
  modify (fun st =>
    set_file_cache
      (PyDict.set u (mkCachedFile u (JStr downloaded_file_path) t l)
                  (file_cache st)) st) ;;
  save_cache.

Definition _remove_expired_file (cached_file : CachedFile) : M unit :=
  os_remove (path cached_file) ;;
  st <- get_state ;;
  if PyDict.mem (url cached_file) (file_cache st)
  then modify (fun st =>
         set_file_cache (PyDict.del (url cached_file) (file_cache st)) st)
  else raise (KeyError (url cached_file)).

(** [self._cache_file(url)]: the class defines no attribute of that name,
    so the attribute lookup raises before anything is called. *)
Definition _cache_file (u : string) : M unit :=
  raise (AttributeError "_cache_file").

(** [self.file_cache[url]] *)
Definition file_cache_getitem (u : string) : M CachedFile :=
  st <- get_state ;;
  of_option (PyDict.get u (file_cache st)) (KeyError u).

Definition _get_cached_file_path (u : string) : M json :=
  st <- get_state ;;
  (if PyDict.mem u (file_cache st) then
     cached_file <- file_cache_getitem u ;;
     expired <- is_expired cached_file ;;
     if negb expired then ret tt
     else _remove_expired_file cached_file ;; _cache_file u
   else _download_and_cache_file u) ;;
  cf <- file_cache_getitem u ;;
  ret (path cf).

Definition get_from_url (u : string) : M json :=
  p <- _get_cached_file_path u ;;
  file_contents <- _read_cached_file p ;;
  of_option (json_loads L file_contents) JSONDecodeError.

(** [__init__], given the directory that [_get_cache_dir] resolved and
    [_try_create_cache_dir] made sure exists. *)
Definition init (dir : string) : M unit :=
  modify (fun st =>
    mkState (fs st) (now st) (uuid_count st) (events st) dir
            (Some (os_path_join dir "file_cache.json")) (file_cache st)) ;;
  _load_file_cache.

End USTDownloadCache.

(** ** Reading the event trace *)

Definition is_download (e : event) : bool :=
  match e with EvDownload _ _ => true | _ => false end.

Definition is_dump (e : event) : bool :=
  match e with EvDump _ => true | _ => false end.

Definition is_remove (e : event) : bool :=
  match e with EvRemove _ => true | _ => false end.

(** Number of transfers started, index documents written, files removed. *)
Definition count_downloads (st : state) : nat :=
  length (filter is_download (events st)).
Definition count_dumps (st : state) : nat :=
  length (filter is_dump (events st)).
Definition count_removes (st : state) : nat :=
  length (filter is_remove (events st)).

(** ** Properties named by the specification *)

(** Every key of the store maps to an entry made for that key. *)
Definition store_inv (c : list (string * CachedFile)) : Prop :=
  Forall (fun kv => url kv.2 = kv.1) c.

(** A store as Python can hold it: no key twice, entries made for their key. *)
Definition store_wf (c : list (string * CachedFile)) : Prop :=
  NoDup (PyDict.keys c) /\ store_inv c.

(** What [json.load(cmf)] raises on a document it cannot read. *)
Definition CorruptIndex (e : exn) : Prop :=
  e = JSONDecodeError \/ e = UnicodeDecodeError.

(** The error of [_get_file_metadata] on a document without the key. *)
Definition MetadataMissing : exn :=
  Exception_ "Error parsing metadata from file.".

(** The error [_read_cached_file] turns a failed decompression into. *)
Definition DecompressionFailed (L : Libs) (e : exn) : Prop :=
  exists ex, e = Exception_ ("Failed to decompress bz2 archive: " +:+ exn_str L ex).

(** The document carries [metadata] with [timestamp] and [ttl]. *)
Definition metadata_fields (j : json) : option (json * json) :=
  match j with
  | JDict d =>
      match PyDict.get "metadata" d with
      | Some (JDict m) =>
          match PyDict.get "timestamp" m, PyDict.get "ttl" m with
          | Some t, Some l => Some (t, l)
          | _, _ => None
          end
      | _ => None
      end
  | _ => None
  end.

(** The outcome of [_read_cached_file] on a file with bytes [c], and of
    parsing what it returns. *)
Definition decoded (L : Libs) (c : list byte) : result file_contents :=
  if bytes_eqb (take 2 c) bz_magic then
    match bz2_decompress L c with
    | inr d => Ok (PyBytes d)
    | inl ex =>
        Raise (Exception_ ("Failed to decompress bz2 archive: " +:+ exn_str L ex))
    end
  else
    match text_decode L c with
    | Some s => Ok (PyStr s)
    | None => Raise UnicodeDecodeError
    end.

Definition parsed (L : Libs) (c : list byte) : result json :=
  match decoded L c with
  | Ok fc =>
      match json_loads L fc with
      | Some j => Ok j
      | None => Raise JSONDecodeError
      end
  | Raise e => Raise e
  end.

(** ** A small instance of the libraries, to run the model on *)

Module Demo.

Definition quote : string := String (Ascii.ascii_of_nat 34) EmptyString.

(** A compact printer standing for [json.dump]. *)
Fixpoint print (j : json) : string :=
  match j with
  | JNull => "null"
  | JBool b => if b then "true" else "false"
  | JInt z => pretty z
  | JStr s => quote +:+ s +:+ quote
  | JList l =>
      "[" +:+
      (fix go (l : list json) : string :=
         match l with
         | [] => "]"
         | x :: l' => print x +:+ "," +:+ go l'
         end) l
  | JDict d =>
      "{" +:+
      (fix go (d : list (string * json)) : string :=
         match d with
         | [] => "}"
         | (k, v) :: d' => quote +:+ k +:+ quote +:+ ":" +:+ print v +:+ "," +:+ go d'
         end) d
  end.

Definition good_doc : json :=
  JDict [("metadata", JDict [("timestamp", JInt 1000); ("ttl", JInt 60)]);
         ("value", JInt 42)].

Definition no_metadata_doc : json := JDict [("value", JInt 42)].

Definition no_ttl_doc : json :=
  JDict [("metadata", JDict [("timestamp", JInt 1000)])].

Definition a_url : string := "file:///data/a.json".
Definition b_url : string := "file:///data/b.json".
Definition c_url : string := "file:///data/c.json".

Definition a_entry : CachedFile :=
  mkCachedFile a_url (JStr "/cache/old") (JInt 1000) (JInt 60).

Definition a_store : list (string * CachedFile) := [(a_url, a_entry)].

(** The documents the demo parser knows. *)
Definition known : list json :=
  [good_doc; no_metadata_doc; no_ttl_doc; encode_file_cache a_store].

Definition parse (s : string) : option json :=
  find (fun j => String.eqb (print j) s) known.

Definition loads (fc : file_contents) : option json :=
  match fc with
  | PyStr s => parse s
  | PyBytes b => parse (String.string_of_list_byte b)
  end.

(** A stand-in for bz2: the stream is the payload after the signature. *)
Definition decompress (c : list byte) : exn + list byte :=
  match drop 2 c with
  | [] => inl EOFError
  | d => inr d
  end.

Definition perform (u : string) : list byte * option exn :=
  if String.eqb u a_url then (String.list_byte_of_string (print good_doc), None)
  else if String.eqb u b_url then (String.list_byte_of_string (print no_metadata_doc), None)
  else if String.eqb u c_url then (String.list_byte_of_string (print no_ttl_doc), None)
  else ([], Some (CurlError "Couldn't read a file:// file")).

Definition libs : Libs := {|
  json_loads := loads;
  json_dumps := fun j => String.list_byte_of_string (print j);
  text_decode := fun c => Some (String.string_of_list_byte c);
  bz2_decompress := decompress;
  curl_perform := perform;
  uuid4 := fun n => "uuid-" +:+ pretty n;
  exn_str := fun _ => "error";
|}.

Definition index_path : string := "/cache/file_cache.json".

(** An empty cache directory at time 1030. *)
Definition empty_state : state :=
  mkState ∅ 1030 0 [] "/cache" (Some index_path) [].

(** The entry for [a_url] cached in [/cache/old], at time [t]. *)
Definition cached_state (t : Z) : state :=
  mkState {[ "/cache/old" := String.list_byte_of_string (print good_doc) ]}
          t 0 [] "/cache" (Some index_path) a_store.

(** Two files that carry the signature: one bz2 accepts, one it rejects. *)
Definition bz_good : list byte :=
  bz_magic ++ String.list_byte_of_string (print good_doc).

Definition bz_state : state :=
  mkState {[ "/cache/bz" := bz_good; "/cache/bad" := bz_magic ]}
          1030 0 [] "/cache" (Some index_path) [].

(** A cache directory whose index is not a JSON document. *)
Definition corrupt_state : state :=
  mkState {[ index_path := String.list_byte_of_string "{oops" ]}
          1030 0 [] "/cache" (Some index_path) [].

End Demo.

(** What [_get_file_metadata] and the two subscripts of
    [_download_and_cache_file] make of a parsed document: the [timestamp]
    and [ttl] of the new entry, or the exception raised on the way. *)
Definition entry_fields (j : json) : result (json * json) :=
  match py_contains "metadata" j with
  | Raise e => Raise e
  | Ok b =>
      if negb b then Raise MetadataMissing
      else
        match py_getitem j "metadata" with
        | Raise e => Raise e
        | Ok m =>
            match py_getitem m "timestamp" with
            | Raise e => Raise e
            | Ok t =>
                match py_getitem m "ttl" with
                | Raise e => Raise e
                | Ok l => Ok (t, l)
                end
            end
        end
  end.

(** ** Frames: what a computation leaves alone *)

(** [frame R m]: every run of [m], whatever its outcome, takes a state to
    one related to it by [R]. *)
Definition frame {A} (R : relation state) (m : M A) : Prop :=
  forall st, R st (m st).2.

(** The attributes of [self] and the clock are as before. *)
Definition same_self (a b : state) : Prop :=
  file_cache b = file_cache a /\ cache_metadata_file b = cache_metadata_file a /\
  cache_dir b = cache_dir a /\ now b = now a.

(** Only the event trace grew, and only by reads of [p]. *)
Definition only_reads (p : json) (a b : state) : Prop :=
  exists evs, b = set_events (events a ++ evs) a /\
              Forall (fun e => exists s, p = JStr s /\ e = EvOpenRead s) evs.

(** The invariant of the store is kept. *)
Definition keeps_inv (a b : state) : Prop :=
  store_inv (file_cache a) -> store_inv (file_cache b).

(** The json library reads back the document it wrote. *)
Definition reads_back (L : Libs) (doc : json) : Prop :=
  exists s, text_decode L (json_dumps L doc) = Some s /\
            json_loads L (PyStr s) = Some doc.

(** ** The constructor and the cache directory *)

(** What [__init__] uses of the host besides the files: the environment
    variables, [str(Path.home())], and its [os.mkdir].  The directories that
    exist are a set of paths handed to the constructor and handed back by
    it.  [mkdir_raises h dirs p] is what [os.mkdir(p)] raises on the host
    when [dirs] are the directories there ([FileNotFoundError] for a missing
    parent, [PermissionError], ...), or [None] when it makes the
    directory. *)
Record host : Type := mkHost {
  environ : gmap string string;
  home : string;
  mkdir_raises : gset string -> string -> option exn;
}.

Definition _get_cache_dir (h : host) : string :=
  let cache_dir := ".ust_cache" in
  match environ h !! "SNAP_USER_COMMON" with
  | Some snap => os_path_join snap cache_dir
  | None => os_path_join (home h) cache_dir
  end.

(** [os.path.exists(p)] and [os.path.isdir(p)] when [dirs] are the
    directories. *)
Definition os_path_exists_any (dirs : gset string) (p : string) : M bool :=
  log (EvExists p) ;;
  st <- get_state ;;
  ret (bool_decide (p ∈ dirs) ||
       match fs st !! p with Some _ => true | None => false end).

Definition os_path_isdir (dirs : gset string) (p : string) : M bool :=
  log (EvExists p) ;;
  ret (bool_decide (p ∈ dirs)).

(** [os.mkdir(p)] *)
Definition os_mkdir (h : host) (dirs : gset string) (p : string) : M (gset string) :=
  match mkdir_raises h dirs p with
  | Some e => raise e
  | None => ret ({[p]} ∪ dirs)
  end.

Definition _try_create_cache_dir (h : host) (dirs : gset string) : M (gset string) :=
  st <- get_state ;;
  b <- os_path_exists_any dirs (cache_dir st) ;;
  if b then
    d <- os_path_isdir dirs (cache_dir st) ;;
    if negb d then
      raise (Exception_ (cache_dir st +:+ " exists, but is not a directory."))
    else ret dirs
  else os_mkdir h dirs (cache_dir st).

Definition __init__ (L : Libs) (h : host) (dirs : gset string) : M (gset string) :=
  let dir := _get_cache_dir h in
  modify (fun st =>
    mkState (fs st) (now st) (uuid_count st) (events st) dir
            (Some (os_path_join dir "file_cache.json")) (file_cache st)) ;;
  dirs' <- _try_create_cache_dir h dirs ;;
  _load_file_cache L ;;
  ret dirs'.

(** ** Reading the index document, record by record *)

(** The three fields [_load_file_cache] takes from a record. *)
Definition record_fields (r : json) : option (json * json * json) :=
  match r with
  | JDict d =>
      match PyDict.get "path" d, PyDict.get "timestamp" d, PyDict.get "ttl" d with
      | Some p, Some t, Some l => Some (p, t, l)
      | _, _, _ => None
      end
  | _ => None
  end.

(** The store an index document stands for, if every record is complete. *)
Fixpoint loaded_store (d : list (string * json))
    : option (list (string * CachedFile)) :=
  match d with
  | [] => Some []
  | (k, r) :: d' =>
      match record_fields r, loaded_store d' with
      | Some (p, t, l), Some c => Some ((k, mkCachedFile k p t l) :: c)
      | _, _ => None
      end
  end.

(** A value [-] and [>] accept next to an [int]. *)
Definition is_number (j : json) : bool :=
  match j with JInt _ | JBool _ => true | _ => false end.

(** ** More frames *)

(** The bindings of the store other than that of [u] are as before. *)
Definition others_kept (u : string) (a b : state) : Prop :=
  forall u', u' <> u ->
    PyDict.get u' (file_cache b) = PyDict.get u' (file_cache a).

(** Nothing but reads: the attributes of [self], the files, the uuid counter
    and the numbers of transfers, index writes and removals are as before. *)
Definition quiet (a b : state) : Prop :=
  same_self a b /\ fs b = fs a /\ uuid_count b = uuid_count a /\
  count_downloads b = count_downloads a /\ count_dumps b = count_dumps a /\
  count_removes b = count_removes a.

(** Outside the path [q], the files are as before; so is the index path,
    as long as it is not [q]. *)
Definition file_kept (q : string) (a b : state) : Prop :=
  cache_metadata_file a <> Some q ->
  cache_metadata_file b = cache_metadata_file a /\ fs b !! q = fs a !! q.

Module Demo2.

Definition d_url : string := "file:///data/missing.json".

(** An entry for [Demo.a_url] whose file is gone, at time [t]. *)
Definition lost_state (t : Z) : state :=
  mkState ∅ t 0 [] "/cache" (Some Demo.index_path) Demo.a_store.

(** An entry whose [ttl] came out of the document as a string. *)
Definition odd_entry : CachedFile :=
  mkCachedFile Demo.a_url (JStr "/cache/old") (JInt 1000) (JStr "60").

Definition odd_state : state :=
  mkState {[ "/cache/old" := String.list_byte_of_string (Demo.print Demo.good_doc) ]}
          1030 0 [] "/cache" (Some Demo.index_path) [(Demo.a_url, odd_entry)].

(** The libraries of [Demo], with a remote that serves a broken document. *)
Definition garbled_libs : Libs :=
  mkLibs Demo.loads (json_dumps Demo.libs) (text_decode Demo.libs)
         Demo.decompress
         (fun _ => (String.list_byte_of_string "{oops", None))
         (uuid4 Demo.libs) (exn_str Demo.libs).

(** A cache directory whose index has a record without [path]. *)
Definition broken_index_state : state :=
  mkState {[ Demo.index_path :=
               String.list_byte_of_string (Demo.print Demo.no_ttl_doc) ]}
          1030 0 [] "/cache" (Some Demo.index_path) [].

(** An instance in the cache directory of [plain_host], and what a first
    fetch of [Demo.a_url] leaves in its store. *)
Definition home_dir : string := "/home/u/.ust_cache".
Definition home_index : string := "/home/u/.ust_cache/file_cache.json".

Definition fetched_store : list (string * CachedFile) :=
  [(Demo.a_url,
    mkCachedFile Demo.a_url (JStr "/home/u/.ust_cache/uuid-0") (JInt 1000) (JInt 60))].

Definition loads2 (fc : file_contents) : option json :=
  let parse s :=
    find (fun j => String.eqb (Demo.print j) s)
         (encode_file_cache fetched_store :: Demo.known) in
  match fc with
  | PyStr s => parse s
  | PyBytes b => parse (String.string_of_list_byte b)
  end.

Definition libs2 : Libs :=
  mkLibs loads2 (json_dumps Demo.libs) (text_decode Demo.libs) Demo.decompress
         Demo.perform (uuid4 Demo.libs) (exn_str Demo.libs).

Definition fresh_instance : state :=
  mkState ∅ 1030 0 [] home_dir (Some home_index) [].

(** The part of a path before its last slash, if it has one. *)
Fixpoint parent_of (p : string) : option string :=
  match p with
  | EmptyString => None
  | String c r =>
      match parent_of r with
      | Some d => Some (String c d)
      | None => if String.eqb (String c EmptyString) "/" then Some EmptyString
                else None
      end
  end.

(** An [os.mkdir] that raises when the parent of the path is not there; the
    root and the working directory always are. *)
Definition mkdir (dirs : gset string) (p : string) : option exn :=
  match parent_of p with
  | Some d =>
      if String.eqb d EmptyString || bool_decide (d ∈ dirs) then None
      else Some (FileNotFoundError p)
  | None => None
  end.

(** A host with a home directory and nothing else. *)
Definition plain_host : host := mkHost ∅ "/home/u" mkdir.


(** A state before construction: no attribute of [self] is set yet. *)
Definition blank_state (files : gmap string (list byte)) : state :=
  mkState files 1030 0 [] EmptyString None [].

End Demo2.

(** ** Steps of the monad *)

Lemma bind_ok {A B} (m : M A) (k : A -> M B) st a st' :
  m st = (Ok a, st') -> bind m k st = k a st'.
Proof. unfold bind. intros ->. reflexivity. Qed.

Lemma bind_raise {A B} (m : M A) (k : A -> M B) st e st' :
  m st = (Raise e, st') -> bind m k st = (Raise e, st').
Proof. unfold bind. intros ->. reflexivity. Qed.

Lemma bind_run {A B} (m : M A) (k : A -> M B) st r st' :
  m st = (r, st') ->
  bind m k st = match r with Ok a => k a st' | Raise e => (Raise e, st') end.
Proof. unfold bind. intros ->. reflexivity. Qed.

Lemma try_ok {A} (m : M A) h st a st' :
  m st = (Ok a, st') -> try_except m h st = (Ok a, st').
Proof. unfold try_except. intros ->. reflexivity. Qed.

Lemma try_raise {A} (m : M A) h st e st' :
  m st = (Raise e, st') -> try_except m h st = h e st'.
Proof. unfold try_except. intros ->. reflexivity. Qed.

Lemma bytes_eqb_eq a b : bytes_eqb a b = true <-> a = b.
Proof.
  revert b. induction a as [|x a IH]; intros [|y b]; simpl; try easy.
  rewrite andb_true_iff, IH. split.
  - intros [H ->]. apply Byte.byte_dec_bl in H. now subst.
  - intros [= -> ->]. split; [now apply Byte.byte_dec_lb | reflexivity].
Qed.

Lemma open_read_some p c st :
  fs st !! p = Some c ->
  open_read (JStr p) st = (Ok c, set_events (events st ++ [EvOpenRead p]) st).
Proof.
  intros H. unfold open_read, log, modify, get_state, bind, of_option; simpl.
  rewrite H. reflexivity.
Qed.

Lemma open_read_none p st :
  fs st !! p = None ->
  open_read (JStr p) st
  = (Raise (FileNotFoundError p), set_events (events st ++ [EvOpenRead p]) st).
Proof.
  intros H. unfold open_read, log, modify, get_state, bind, of_option; simpl.
  rewrite H. reflexivity.
Qed.

Lemma os_path_exists_some p c st :
  fs st !! p = Some c ->
  os_path_exists p st = (Ok true, set_events (events st ++ [EvExists p]) st).
Proof.
  intros H. unfold os_path_exists, log, modify, get_state, bind, ret; simpl.
  rewrite H. reflexivity.
Qed.

Section Decoding.
Context (L : Libs).

Lemma is_bz2_some p c st :
  fs st !! p = Some c ->
  _is_bz2 (JStr p) st
  = (Ok (bytes_eqb (take 2 c) bz_magic),
     set_events (events st ++ [EvOpenRead p]) st).
Proof.
  intros H. unfold _is_bz2. erewrite bind_ok by (apply open_read_some; eauto).
  reflexivity.
Qed.

Lemma read_cached_file_some p c st :
  fs st !! p = Some c ->
  _read_cached_file L (JStr p) st
  = (decoded L c,
     set_events (events st ++ [EvOpenRead p; EvOpenRead p]) st).
Proof.
  intros H. unfold _read_cached_file, decoded.
  erewrite bind_ok by (apply is_bz2_some; eauto).
  assert (H' : fs (set_events (events st ++ [EvOpenRead p]) st) !! p = Some c)
    by exact H.
  destruct (bytes_eqb (take 2 c) bz_magic).
  - destruct (bz2_decompress L c) as [ex|d] eqn:E.
    + erewrite try_raise.
      2:{ erewrite bind_ok by (apply open_read_some; eauto). rewrite E. reflexivity. }
      unfold raise, set_events; simpl. now rewrite <- app_assoc.
    + erewrite try_ok.
      2:{ erewrite bind_ok by (apply open_read_some; eauto). rewrite E. reflexivity. }
      unfold set_events; simpl. now rewrite <- app_assoc.
  - erewrite bind_ok by (apply open_read_some; eauto).
    unfold of_option, bind, ret, raise, set_events; simpl.
    rewrite <- app_assoc. now destruct (text_decode L c).
Qed.
End Decoding.

(** ** Frame rules *)

Section FrameRules.
Context (R : relation state) `{!PreOrder R}.

Lemma frame_ret {A} (a : A) : frame R (ret a).
Proof. intros st. simpl. reflexivity. Qed.

Lemma frame_raise {A} e : frame R (raise (A := A) e).
Proof. intros st. simpl. reflexivity. Qed.

Lemma frame_lift {A} (r : result A) : frame R (lift r).
Proof. intros st. simpl. reflexivity. Qed.

Lemma frame_get : frame R get_state.
Proof. intros st. simpl. reflexivity. Qed.

Lemma frame_of_option {A} (o : option A) e : frame R (of_option o e).
Proof. destruct o; [apply frame_ret | apply frame_raise]. Qed.

Lemma frame_modify f : (forall st, R st (f st)) -> frame R (modify f).
Proof. intros H st. apply H. Qed.

Lemma frame_bind {A B} (m : M A) (k : A -> M B) :
  frame R m -> (forall a, frame R (k a)) -> frame R (bind m k).
Proof.
  intros Hm Hk st. unfold bind. specialize (Hm st).
  destruct (m st) as [[a|e] st']; simpl in *; [|assumption].
  etransitivity; [exact Hm | apply Hk].
Qed.

Lemma frame_try {A} (m : M A) h :
  frame R m -> (forall e, frame R (h e)) -> frame R (try_except m h).
Proof.
  intros Hm Hh st. unfold try_except. specialize (Hm st).
  destruct (m st) as [[a|e] st']; simpl in *; [assumption|].
  etransitivity; [exact Hm | apply Hh].
Qed.
End FrameRules.

Ltac frame_step :=
  lazymatch goal with
  | |- frame _ (bind _ _) => apply frame_bind; [try apply _ | | intros ]
  | |- frame _ (ret _) => apply frame_ret; try apply _
  | |- frame _ (raise _) => apply frame_raise; try apply _
  | |- frame _ (lift _) => apply frame_lift; try apply _
  | |- frame _ get_state => apply frame_get; try apply _
  | |- frame _ (of_option _ _) => apply frame_of_option; try apply _
  | |- frame _ (try_except _ _) => apply frame_try; [try apply _ | | intros ]
  | |- frame _ (modify _) => apply frame_modify; intros
  | |- frame _ (log _) => apply frame_modify; intros
  | |- frame _ (match ?x with _ => _ end) => destruct x
  end.

Ltac frame_auto := repeat frame_step.

#[local] Instance same_self_preorder : PreOrder same_self.
Proof.
  split.
  - intros st. unfold same_self. auto.
  - intros a b c (H1 & H2 & H3 & H4) (H5 & H6 & H7 & H8). unfold same_self.
    repeat split; congruence.
Qed.

#[local] Instance keeps_inv_preorder : PreOrder keeps_inv.
Proof. split; unfold keeps_inv; [intros st; auto | intros a b c; auto]. Qed.

Lemma same_self_keeps_inv a b : same_self a b -> keeps_inv a b.
Proof. intros (H & _) Hi. now rewrite H. Qed.

Lemma frame_weaken {A} (R R' : relation state) (m : M A) :
  (forall a b, R a b -> R' a b) -> frame R m -> frame R' m.
Proof. intros H Hm st. apply H, Hm. Qed.

Section SelfFrames.
Context (L : Libs).

Lemma open_read_self p : frame same_self (open_read p).
Proof. unfold open_read. frame_auto; unfold same_self; simpl; auto. Qed.

Lemma os_remove_self p : frame same_self (os_remove p).
Proof. unfold os_remove. frame_auto; unfold same_self; simpl; auto. Qed.

Lemma read_cached_file_self p : frame same_self (_read_cached_file L p).
Proof.
  unfold _read_cached_file, _is_bz2.
  frame_auto; try apply open_read_self.
Qed.

Lemma get_file_metadata_self p : frame same_self (_get_file_metadata L p).
Proof.
  unfold _get_file_metadata. frame_auto; try apply read_cached_file_self.
Qed.

Lemma download_self u f : frame same_self (_download L u f).
Proof. unfold _download. frame_auto; unfold same_self; simpl; auto. Qed.

Lemma save_cache_self : frame same_self (save_cache L).
Proof. unfold save_cache. frame_auto; unfold same_self; simpl; auto. Qed.
End SelfFrames.

(** ** Expiry *)

Lemma is_expired_int (cf : CachedFile) (st : state) (t l : Z) :
  timestamp cf = JInt t ->
  ttl cf = JInt l ->
  is_expired cf st = (Ok (Z.ltb l (now st - t)), st).
Proof.
  intros Ht Hl.
  unfold is_expired, time_time, bind, lift, ret, get_state, py_int.
  now rewrite Ht, Hl.
Qed.

(** C8. For an entry with integer [timestamp] and [ttl], [is_expired] read at
    state [st] is [(now - timestamp) > ttl] for the clock of [st]; the state
    is returned as it was, so nothing is remembered from one query to the
    next; and when [now - timestamp] is exactly [ttl] the entry is not
    expired. *)
Theorem is_expired_at_query_time (cf : CachedFile) (st : state) (t l : Z) :
  timestamp cf = JInt t ->
  ttl cf = JInt l ->
  is_expired cf st = (Ok (bool_decide (now st - t > l)), st) /\
  (now st - t = l -> is_expired cf st = (Ok false, st)).
Proof.
  intros Ht Hl. rewrite (is_expired_int cf st t l Ht Hl).
  split; [|intros Heq]; do 2 f_equal.
  - destruct (Z.ltb_spec l (now st - t)); symmetry.
    + apply bool_decide_eq_true. lia.
    + apply bool_decide_eq_false. lia.
  - apply Z.ltb_ge. lia.
Qed.

Lemma is_expired_at_query_time_witness :
  is_expired Demo.a_entry (Demo.cached_state 1060)
  = (Ok false, Demo.cached_state 1060) /\
  is_expired Demo.a_entry (Demo.cached_state 1061)
  = (Ok true, Demo.cached_state 1061).
Proof.
  split.
  - apply (is_expired_at_query_time Demo.a_entry (Demo.cached_state 1060) 1000 60);
      reflexivity.
  - apply (is_expired_at_query_time Demo.a_entry (Demo.cached_state 1061) 1000 60);
      reflexivity.
Defined.

(** ** Decoding *)

(** C6. For a file with bytes [c] at [p], [_is_bz2] answers from the first
    two bytes alone; when they are the signature the whole stream goes
    through bz2 before anything is parsed, and a stream bz2 rejects ends the
    call with the decompression error; when they are not, the bytes are read
    as they are. *)
Theorem read_cached_file_sniffs_magic (L : Libs) (p : string) (c : list byte)
    (st : state) :
  fs st !! p = Some c ->
  let st' := set_events (events st ++ [EvOpenRead p; EvOpenRead p]) st in
  (_is_bz2 (JStr p) st).1 = Ok (bool_decide (take 2 c = bz_magic)) /\
  (take 2 c = bz_magic -> forall d, bz2_decompress L c = inr d ->
     _read_cached_file L (JStr p) st = (Ok (PyBytes d), st')) /\
  (take 2 c = bz_magic -> forall ex, bz2_decompress L c = inl ex ->
     exists e, _read_cached_file L (JStr p) st = (Raise e, st') /\
               DecompressionFailed L e) /\
  (take 2 c <> bz_magic ->
     _read_cached_file L (JStr p) st
     = (match text_decode L c with
        | Some s => Ok (PyStr s)
        | None => Raise UnicodeDecodeError
        end, st')).
Proof.
  intros Hf st'.
  pose proof (read_cached_file_some L p c st Hf) as Hr. unfold decoded in Hr.
  pose proof (bytes_eqb_eq (take 2 c) bz_magic) as Hm.
  repeat split.
  - rewrite (is_bz2_some p c st Hf). simpl. f_equal.
    destruct (bytes_eqb (take 2 c) bz_magic); symmetry.
    + apply bool_decide_eq_true. now apply Hm.
    + apply bool_decide_eq_false. intros H. apply Hm in H. discriminate.
  - intros H d Hd. apply Hm in H. rewrite H, Hd in Hr. exact Hr.
  - intros H ex Hex. apply Hm in H. rewrite H, Hex in Hr.
    eexists. split; [exact Hr|]. now exists ex.
  - intros H. destruct (bytes_eqb (take 2 c) bz_magic); [|exact Hr].
    exfalso. apply H. now apply Hm.
Qed.

Lemma read_cached_file_sniffs_magic_witness :
  (_read_cached_file Demo.libs (JStr "/cache/old") (Demo.cached_state 1060)).1
  = Ok (PyStr (Demo.print Demo.good_doc)) /\
  (_read_cached_file Demo.libs (JStr "/cache/bz") Demo.bz_state).1
  = Ok (PyBytes (String.list_byte_of_string (Demo.print Demo.good_doc))) /\
  exists e, (_read_cached_file Demo.libs (JStr "/cache/bad") Demo.bz_state).1
            = Raise e /\ DecompressionFailed Demo.libs e.
Proof.
  pose proof (read_cached_file_sniffs_magic Demo.libs "/cache/old"
                (String.list_byte_of_string (Demo.print Demo.good_doc))
                (Demo.cached_state 1060) eq_refl) as (_ & _ & _ & H1).
  pose proof (read_cached_file_sniffs_magic Demo.libs "/cache/bz" Demo.bz_good
                Demo.bz_state eq_refl) as (_ & H2 & _ & _).
  pose proof (read_cached_file_sniffs_magic Demo.libs "/cache/bad" bz_magic
                Demo.bz_state eq_refl) as (_ & _ & H3 & _).
  split; [|split].
  - rewrite H1; [reflexivity|]. vm_compute. discriminate.
  - rewrite (H2 eq_refl _ eq_refl). reflexivity.
  - destruct (H3 eq_refl EOFError eq_refl) as (e & He & Hd).
    exists e. rewrite He. split; [reflexivity | exact Hd].
Defined.

(** ** Loading the index *)

Section Loading.
Context (L : Libs).

(** C7. When the index file is absent, loading returns with an empty
    store and no error; when it is there but cannot be read as a JSON
    document, loading raises the library's error and returns nothing. *)
Theorem load_file_cache_soft_and_hard (st : state) (p : string) :
  cache_metadata_file st = Some p ->
  (fs st !! p = None ->
     _load_file_cache L st
     = (Ok tt, set_events (events st ++ [EvExists p]) (set_file_cache [] st))) /\
  (forall c, fs st !! p = Some c ->
     (text_decode L c ≫= (fun s => json_loads L (PyStr s))) = None ->
     exists e st', _load_file_cache L st = (Raise e, st') /\ CorruptIndex e).
Proof.
  intros Hp. split.
  - intros Hf. unfold _load_file_cache, bind, modify, get_state, os_path_exists,
      log, ret; simpl. rewrite Hp. simpl. rewrite Hf. reflexivity.
  - intros c Hf Hbad.
    unfold _load_file_cache, bind, modify, get_state, os_path_exists,
      log, ret, open_read, of_option; simpl. rewrite Hp. simpl.
    rewrite !Hf. unfold bind, modify, get_state, log, ret, raise; simpl.
    rewrite ?Hf.
    destruct (text_decode L c) as [s|]; simpl in *.
    + rewrite Hbad. do 2 eexists. split; [reflexivity | now left].
    + do 2 eexists. split; [reflexivity | now right].
Qed.
End Loading.

Lemma load_file_cache_soft_and_hard_witness :
  _load_file_cache Demo.libs Demo.empty_state
  = (Ok tt, set_events [EvExists Demo.index_path] Demo.empty_state) /\
  exists e st', _load_file_cache Demo.libs Demo.corrupt_state = (Raise e, st') /\
                CorruptIndex e.
Proof.
  split.
  - apply (load_file_cache_soft_and_hard Demo.libs Demo.empty_state
             Demo.index_path eq_refl).
    reflexivity.
  - apply (load_file_cache_soft_and_hard Demo.libs Demo.corrupt_state
             Demo.index_path eq_refl) with (c := String.list_byte_of_string "{oops");
      reflexivity.
Defined.

(** ** The dictionary operations *)

Section DictFacts.
Context {V : Type}.
Implicit Types (d : list (string * V)) (k : string) (v : V).

Lemma get_none_not_key k d : PyDict.get k d = None <-> k ∉ PyDict.keys d.
Proof.
  unfold PyDict.keys. induction d as [|[k' v'] d IH]; simpl.
  - split; [intros _; apply not_elem_of_nil | reflexivity].
  - rewrite not_elem_of_cons. destruct (String.eqb_spec k k') as [->|Hne].
    + split; [discriminate | intros [H _]; now contradict H].
    + rewrite IH. tauto.
Qed.

Lemma set_fresh k v d : PyDict.get k d = None -> PyDict.set k v d = d ++ [(k, v)].
Proof.
  induction d as [|[k' v'] d IH]; simpl; [reflexivity|].
  destruct (String.eqb k k'); [discriminate|]. intros H. now rewrite IH.
Qed.

Lemma set_Forall (P : string * V -> Prop) k v d :
  P (k, v) -> (forall k' v', P (k', v') -> k = k' -> P (k', v)) ->
  Forall P d -> Forall P (PyDict.set k v d).
Proof.
  intros Hn Hr. induction 1 as [|[k' v'] d Hx Hd IH]; simpl.
  - repeat constructor. exact Hn.
  - destruct (String.eqb_spec k k') as [->|Hne]; constructor; eauto.
Qed.

Lemma del_Forall (P : string * V -> Prop) k d :
  Forall P d -> Forall P (PyDict.del k d).
Proof.
  induction 1 as [|[k' v'] d Hx Hd IH]; simpl; [constructor|].
  destruct (String.eqb k k'); [assumption | now constructor].
Qed.

Lemma mem_get k d : PyDict.mem k d = true <-> exists v, PyDict.get k d = Some v.
Proof.
  unfold PyDict.mem. destruct (PyDict.get k d) as [v|].
  - split; [now exists v | reflexivity].
  - split; [discriminate | intros [v Hv]; discriminate].
Qed.
End DictFacts.

Lemma store_inv_set u p t l c :
  store_inv c -> store_inv (PyDict.set u (mkCachedFile u p t l) c).
Proof.
  apply set_Forall; [reflexivity|]. intros k' v' _ ->. reflexivity.
Qed.

Lemma store_inv_del u c : store_inv c -> store_inv (PyDict.del u c).
Proof. apply del_Forall. Qed.

(** ** The invariant of the store *)

Section Invariant.
Context (L : Libs).

Lemma load_item_inv kv : frame keeps_inv (load_item kv).
Proof.
  unfold load_item. frame_auto. intros Hi. simpl. now apply store_inv_set.
Qed.

Lemma load_items_inv items : frame keeps_inv (load_items items).
Proof.
  induction items as [|kv items IH]; simpl; frame_auto.
  - apply load_item_inv.
  - exact IH.
Qed.

Lemma load_file_cache_inv st :
  store_inv (file_cache (_load_file_cache L st).2).
Proof.
  unfold _load_file_cache.
  erewrite bind_ok by reflexivity.
  match goal with
  | |- store_inv (file_cache (?m ?s).2) =>
      assert (H : frame keeps_inv m); [| apply (H s); constructor]
  end.
  frame_auto; try apply load_items_inv;
    try (apply (frame_weaken same_self); [apply same_self_keeps_inv|]);
    try apply open_read_self.
  unfold os_path_exists. frame_auto. unfold same_self. simpl. auto.
Qed.

Lemma download_and_cache_file_inv u :
  frame keeps_inv (_download_and_cache_file L u).
Proof.
  unfold _download_and_cache_file. frame_auto;
    try (apply (frame_weaken same_self); [apply same_self_keeps_inv|]);
    try apply download_self; try apply get_file_metadata_self;
    try apply save_cache_self.
  - intros Hi. exact Hi.
  - intros Hi. simpl. now apply store_inv_set.
Qed.

Lemma remove_expired_file_inv cf : frame keeps_inv (_remove_expired_file cf).
Proof.
  unfold _remove_expired_file. frame_auto;
    try (apply (frame_weaken same_self); [apply same_self_keeps_inv|]);
    try apply os_remove_self.
  intros Hi. simpl. now apply store_inv_del.
Qed.

Lemma get_from_url_inv u : frame keeps_inv (get_from_url L u).
Proof.
  unfold get_from_url, _get_cached_file_path, file_cache_getitem, is_expired,
    time_time, _cache_file.
  frame_auto;
    try apply remove_expired_file_inv; try apply download_and_cache_file_inv;
    try (apply (frame_weaken same_self); [apply same_self_keeps_inv|]);
    try apply read_cached_file_self.
Qed.

(** C9. Every key of the store maps to an entry whose [url] is that key:
    after loading the index, whatever [url] fields the document carries;
    after the insertion made by a fetch; after the removal made by an
    eviction; and so after any call of [get_from_url]. *)
Theorem store_keys_match_urls (st : state) :
  store_inv (file_cache st) ->
  (forall st0, store_inv (file_cache (_load_file_cache L st0).2)) /\
  (forall u, store_inv (file_cache (_download_and_cache_file L u st).2)) /\
  (forall cf, store_inv (file_cache (_remove_expired_file cf st).2)) /\
  (forall u, store_inv (file_cache (get_from_url L u st).2)).
Proof.
  intros Hi. repeat split; intros.
  - apply load_file_cache_inv.
  - now apply download_and_cache_file_inv.
  - now apply remove_expired_file_inv.
  - now apply get_from_url_inv.
Qed.
End Invariant.

Lemma store_keys_match_urls_witness :
  store_inv (file_cache (get_from_url Demo.libs Demo.b_url (Demo.cached_state 1061)).2) /\
  store_inv (file_cache (_remove_expired_file Demo.a_entry (Demo.cached_state 1061)).2).
Proof.
  assert (Hi : store_inv (file_cache (Demo.cached_state 1061))).
  { repeat constructor. }
  destruct (store_keys_match_urls Demo.libs (Demo.cached_state 1061) Hi)
    as (_ & _ & H3 & H4).
  split; [apply H4 | apply H3].
Defined.

(** ** Saving and loading the index *)

Section RoundTrip.
Context (L : Libs).

Lemma save_cache_some st p :
  cache_metadata_file st = Some p ->
  save_cache L st
  = (Ok tt,
     set_fs (<[p := json_dumps L (encode_file_cache (file_cache st))]> (fs st))
            (set_events (events st ++ [EvDump p]) st)).
Proof.
  intros Hp. unfold save_cache, bind, get_state, log, modify. simpl.
  rewrite Hp. reflexivity.
Qed.

Lemma load_item_encode k cf st :
  url cf = k ->
  load_item (k, encode_cached_file cf) st
  = (Ok tt, set_file_cache (PyDict.set k cf (file_cache st)) st).
Proof.
  intros <-. destruct cf as [u p t l]. reflexivity.
Qed.

Lemma load_items_encode c2 :
  forall st,
    NoDup (PyDict.keys (file_cache st ++ c2)) ->
    store_inv c2 ->
    load_items (map (fun kv => (kv.1, encode_cached_file kv.2)) c2) st
    = (Ok tt, set_file_cache (file_cache st ++ c2) st).
Proof.
  induction c2 as [|[k cf] c2 IH]; intros st Hnd Hi; simpl.
  - rewrite app_nil_r. now destruct st.
  - apply Forall_cons in Hi as [Hk Hi]. simpl in Hk.
    erewrite bind_ok by (apply load_item_encode; exact Hk).
    assert (Hfresh : PyDict.get k (file_cache st) = None).
    { apply get_none_not_key. unfold PyDict.keys in *.
      rewrite fmap_app in Hnd. apply NoDup_app in Hnd as (_ & Hd & _).
      intros Hin. apply (Hd k Hin). simpl. left. }
    rewrite (set_fresh _ _ _ Hfresh).
    rewrite IH; simpl; rewrite <- ?app_assoc; auto.
Qed.

End RoundTrip.


(** ** Reading leaves everything but the trace alone *)

Lemma set_events_id st : set_events (events st) st = st.
Proof. now destruct st. Qed.

#[local] Instance only_reads_preorder p : PreOrder (only_reads p).
Proof.
  split.
  - intros st. exists []. rewrite app_nil_r, set_events_id. split; constructor.
  - intros a b c (e1 & -> & H1) (e2 & -> & H2). exists (e1 ++ e2). split.
    + unfold set_events. simpl. now rewrite app_assoc.
    + now apply Forall_app.
Qed.

Lemma only_reads_log s st :
  only_reads (JStr s) st (set_events (events st ++ [EvOpenRead s]) st).
Proof. exists [EvOpenRead s]. split; [reflexivity|]. repeat constructor. now exists s. Qed.

Lemma open_read_only_reads p : frame (only_reads p) (open_read p).
Proof. unfold open_read. frame_auto. apply only_reads_log. Qed.

Lemma read_cached_file_only_reads L p : frame (only_reads p) (_read_cached_file L p).
Proof.
  unfold _read_cached_file, _is_bz2. frame_auto; apply open_read_only_reads.
Qed.

Lemma only_reads_counts p a b :
  only_reads p a b ->
  fs b = fs a /\ file_cache b = file_cache a /\
  count_downloads b = count_downloads a /\ count_dumps b = count_dumps a /\
  count_removes b = count_removes a.
Proof.
  intros (evs & -> & Hevs).
  unfold count_downloads, count_dumps, count_removes. simpl.
  rewrite !filter_app, !length_app.
  assert (H : filter is_download evs = [] /\ filter is_dump evs = [] /\
              filter is_remove evs = []).
  { induction Hevs as [|e evs (s & _ & ->) _ IH]; [auto|].
    destruct IH as (I1 & I2 & I3).
    rewrite !filter_cons. simpl. auto. }
  destruct H as (-> & -> & ->). simpl. repeat split; lia.
Qed.

(** ** A hit on a fresh entry *)

Section FreshHit.
Context (L : Libs).

Lemma file_cache_getitem_some u cf st :
  PyDict.get u (file_cache st) = Some cf ->
  file_cache_getitem u st = (Ok cf, st).
Proof.
  intros H. unfold file_cache_getitem, bind, get_state, of_option, ret.
  now rewrite H.
Qed.

Lemma get_cached_file_path_fresh u cf t l st :
  PyDict.get u (file_cache st) = Some cf ->
  timestamp cf = JInt t -> ttl cf = JInt l -> now st - t <= l ->
  _get_cached_file_path L u st = (Ok (path cf), st).
Proof.
  intros Hg Ht Hl Hfresh. unfold _get_cached_file_path.
  erewrite bind_ok by reflexivity.
  assert (Hm : PyDict.mem u (file_cache st) = true) by (apply mem_get; eauto).
  rewrite Hm. cbv beta iota.
  assert (Hlt : Z.ltb l (now st - t) = false) by (apply Z.ltb_ge; lia).
  erewrite bind_ok.
  2:{ erewrite bind_ok by (apply file_cache_getitem_some; exact Hg).
      erewrite bind_ok by (apply (is_expired_int cf st t l); assumption).
      rewrite Hlt. reflexivity. }
  erewrite bind_ok by (apply file_cache_getitem_some; exact Hg).
  reflexivity.
Qed.

Lemma get_from_url_fresh u cf t l st :
  PyDict.get u (file_cache st) = Some cf ->
  timestamp cf = JInt t -> ttl cf = JInt l -> now st - t <= l ->
  get_from_url L u st
  = bind (_read_cached_file L (path cf))
         (fun fc => of_option (json_loads L fc) JSONDecodeError) st.
Proof.
  intros Hg Ht Hl Hfresh. unfold get_from_url.
  erewrite bind_ok by (now apply (get_cached_file_path_fresh u cf t l)).
  reflexivity.
Qed.

Lemma read_then_parse_state p st :
  (bind (_read_cached_file L p)
        (fun fc => of_option (json_loads L fc) JSONDecodeError) st).2
  = (_read_cached_file L p st).2.
Proof.
  unfold bind. destruct (_read_cached_file L p st) as [[fc|e] st']; [|reflexivity].
  now destruct (json_loads L fc).
Qed.

Lemma read_then_parse_some p c st :
  fs st !! p = Some c ->
  (bind (_read_cached_file L (JStr p))
        (fun fc => of_option (json_loads L fc) JSONDecodeError) st).1
  = parsed L c.
Proof.
  intros Hf. unfold bind, parsed. rewrite (read_cached_file_some L p c st Hf).
  destruct (decoded L c) as [fc|e]; [|reflexivity].
  now destruct (json_loads L fc).
Qed.

(** C4. On an entry with [now - timestamp <= ttl], [get_from_url] is the
    reading and parsing of the file at the entry's [path] and nothing
    else: no transfer is started, and the value returned is what decoding
    and parsing that file gives. *)
Theorem fresh_hit_reads_cached_file (u : string) (cf : CachedFile) (t l : Z)
    (st : state) :
  PyDict.get u (file_cache st) = Some cf ->
  timestamp cf = JInt t -> ttl cf = JInt l -> now st - t <= l ->
  get_from_url L u st
  = bind (_read_cached_file L (path cf))
         (fun fc => of_option (json_loads L fc) JSONDecodeError) st /\
  count_downloads (get_from_url L u st).2 = count_downloads st /\
  (forall p c, path cf = JStr p -> fs st !! p = Some c ->
               (get_from_url L u st).1 = parsed L c).
Proof.
  intros Hg Ht Hl Hfresh.
  pose proof (get_from_url_fresh u cf t l st Hg Ht Hl Hfresh) as E.
  split; [exact E|]. rewrite E. split.
  - rewrite read_then_parse_state.
    now apply (only_reads_counts (path cf)), read_cached_file_only_reads.
  - intros p c -> Hf. now apply read_then_parse_some.
Qed.

(** C10. On an entry with [now - timestamp <= ttl], [get_from_url] leaves
    the store, the files and the index document as they were, starts no
    transfer and removes nothing; the trace grows by reads of the entry's
    [path] and by nothing else. *)
Theorem fresh_hit_frame (u : string) (cf : CachedFile) (t l : Z) (st : state) :
  PyDict.get u (file_cache st) = Some cf ->
  timestamp cf = JInt t -> ttl cf = JInt l -> now st - t <= l ->
  let st' := (get_from_url L u st).2 in
  only_reads (path cf) st st' /\
  file_cache st' = file_cache st /\ fs st' = fs st /\
  count_downloads st' = count_downloads st /\
  count_dumps st' = count_dumps st /\
  count_removes st' = count_removes st.
Proof.
  intros Hg Ht Hl Hfresh st'.
  assert (Hr : only_reads (path cf) st st').
  { unfold st'. rewrite (get_from_url_fresh u cf t l st Hg Ht Hl Hfresh).
    rewrite read_then_parse_state. apply read_cached_file_only_reads. }
  split; [exact Hr|].
  destruct (only_reads_counts _ _ _ Hr) as (H1 & H2 & H3 & H4 & H5).
  repeat split; assumption.
Qed.
End FreshHit.

Lemma fresh_hit_reads_cached_file_witness :
  (get_from_url Demo.libs Demo.a_url (Demo.cached_state 1060)).1 = Ok Demo.good_doc /\
  count_downloads (get_from_url Demo.libs Demo.a_url (Demo.cached_state 1060)).2 = 0%nat.
Proof.
  assert (Hle : now (Demo.cached_state 1060) - 1000 <= 60) by (simpl; lia).
  destruct (fresh_hit_reads_cached_file Demo.libs Demo.a_url Demo.a_entry 1000 60
              (Demo.cached_state 1060) eq_refl eq_refl eq_refl Hle)
    as (_ & H2 & H3).
  split; [|exact H2].
  rewrite (H3 "/cache/old" _ eq_refl eq_refl). reflexivity.
Defined.

Lemma fresh_hit_frame_witness :
  let st := Demo.cached_state 1060 in
  let st' := (get_from_url Demo.libs Demo.a_url st).2 in
  file_cache st' = file_cache st /\ fs st' = fs st /\
  count_downloads st' = 0%nat /\ count_dumps st' = 0%nat /\
  count_removes st' = 0%nat.
Proof.
  assert (Hle : now (Demo.cached_state 1060) - 1000 <= 60) by (simpl; lia).
  destruct (fresh_hit_frame Demo.libs Demo.a_url Demo.a_entry 1000 60
              (Demo.cached_state 1060) eq_refl eq_refl eq_refl Hle)
    as (_ & H).
  exact H.
Defined.

(** ** The metadata of a fetched document *)

Lemma entry_fields_some j t l :
  metadata_fields j = Some (t, l) -> entry_fields j = Ok (t, l).
Proof.
  unfold metadata_fields, entry_fields, py_contains, py_getitem, PyDict.mem.
  destruct j as [| | | | |d]; try discriminate.
  destruct (PyDict.get "metadata" d) as [[| | | | |m]|]; try discriminate.
  simpl.
  destruct (PyDict.get "timestamp" m) as [t'|]; [|discriminate].
  destruct (PyDict.get "ttl" m) as [l'|]; [|discriminate].
  now intros [= -> ->].
Qed.

Lemma entry_fields_none j :
  metadata_fields j = None -> exists e, entry_fields j = Raise e.
Proof.
  unfold metadata_fields, entry_fields, py_contains, py_getitem, PyDict.mem.
  destruct j as [| | |s|l0|d]; simpl; eauto.
  - destruct (negb (is_substring "metadata" s)); eauto.
  - destruct (negb (existsb (is_str "metadata") l0)); eauto.
  - destruct (PyDict.get "metadata" d) as [[| | | | |m]|]; simpl; eauto.
    destruct (PyDict.get "timestamp" m) as [t'|]; eauto.
    destruct (PyDict.get "ttl" m) as [l'|]; eauto. discriminate.
Qed.

Lemma get_set_eq {V} k (v : V) d : PyDict.get k (PyDict.set k v d) = Some v.
Proof.
  induction d as [|[k' v'] d IH]; simpl.
  - now rewrite String.eqb_refl.
  - destruct (String.eqb k k') eqn:E; simpl; rewrite E; auto.
Qed.

(** ** A miss: download, check, register *)

Section ColdMiss.
Context (L : Libs).

Lemma parsed_ok c j :
  parsed L c = Ok j ->
  exists fc, decoded L c = Ok fc /\ json_loads L fc = Some j.
Proof.
  unfold parsed. destruct (decoded L c) as [fc|e]; [|discriminate].
  destruct (json_loads L fc) as [j'|] eqn:E; [|discriminate].
  intros [= ->]. eauto.
Qed.

Lemma download_ok u f c st :
  curl_perform L u = (c, None) ->
  _download L u f st
  = (Ok tt, set_fs (<[f := c]> (fs st))
                   (set_events (events st ++ [EvDownload u f]) st)).
Proof.
  intros Hc. unfold _download. erewrite try_ok; [reflexivity|].
  erewrite bind_ok by reflexivity. erewrite bind_ok by reflexivity.
  rewrite Hc. erewrite bind_ok by reflexivity.
  unfold ret, set_fs, set_events. simpl. now rewrite insert_insert_eq.
Qed.

Lemma get_file_metadata_run p c j st :
  fs st !! p = Some c ->
  parsed L c = Ok j ->
  _get_file_metadata L (JStr p) st
  = (match py_contains "metadata" j with
     | Raise e => Raise e
     | Ok b => if negb b then Raise MetadataMissing else py_getitem j "metadata"
     end,
     set_events (events st ++ [EvOpenRead p; EvOpenRead p]) st).
Proof.
  intros Hf Hp. destruct (parsed_ok c j Hp) as (fc & Hd & Hj).
  unfold _get_file_metadata.
  erewrite bind_ok by (rewrite (read_cached_file_some L p c st Hf), Hd; reflexivity).
  rewrite Hj. erewrite bind_ok by reflexivity.
  unfold bind, lift, raise, MetadataMissing.
  destruct (py_contains "metadata" j) as [[|]|e]; reflexivity.
Qed.

Lemma download_and_cache_run u c j st :
  curl_perform L u = (c, None) ->
  parsed L c = Ok j ->
  let p := os_path_join (cache_dir st) (uuid4 L (uuid_count st)) in
  let st1 :=
    set_events (events st ++ [EvDownload u p; EvOpenRead p; EvOpenRead p])
      (set_fs (<[p := c]> (fs st)) (set_uuid_count (S (uuid_count st)) st)) in
  _download_and_cache_file L u st
  = match entry_fields j with
    | Ok (t, l) =>
        save_cache L
          (set_file_cache
             (PyDict.set u (mkCachedFile u (JStr p) t l) (file_cache st)) st1)
    | Raise e => (Raise e, st1)
    end.
Proof.
  intros Hc Hp p st1. unfold _download_and_cache_file.
  erewrite bind_ok by reflexivity. erewrite bind_ok by reflexivity.
  erewrite bind_ok by (apply download_ok; exact Hc).
  erewrite bind_run.
  2:{ apply (get_file_metadata_run _ c j); [apply lookup_insert_eq | exact Hp]. }
  unfold entry_fields.
  destruct (py_contains "metadata" j) as [[|]|e]; simpl;
    try (unfold st1, set_events, set_fs, set_uuid_count; simpl;
         now rewrite <- app_assoc).
  destruct (py_getitem j "metadata") as [m|e]; simpl;
    try (unfold st1, set_events, set_fs, set_uuid_count; simpl;
         now rewrite <- app_assoc).
  unfold bind, lift.
  destruct (py_getitem m "timestamp") as [t|e]; simpl;
    try (unfold st1, set_events, set_fs, set_uuid_count; simpl;
         now rewrite <- app_assoc).
  destruct (py_getitem m "ttl") as [l|e]; simpl;
    try (unfold st1, set_events, set_fs, set_uuid_count; simpl;
         now rewrite <- app_assoc).
Qed.
Lemma get_cached_file_path_miss u st :
  PyDict.get u (file_cache st) = None ->
  _get_cached_file_path L u st
  = bind (_download_and_cache_file L u)
         (fun _ => bind (file_cache_getitem u) (fun cf => ret (path cf))) st.
Proof.
  intros Hg. unfold _get_cached_file_path.
  erewrite bind_ok by reflexivity.
  unfold PyDict.mem. rewrite Hg. reflexivity.
Qed.

Lemma cold_miss_path u idx c j t l st :
  PyDict.get u (file_cache st) = None ->
  cache_metadata_file st = Some idx ->
  curl_perform L u = (c, None) ->
  parsed L c = Ok j ->
  metadata_fields j = Some (t, l) ->
  let p := os_path_join (cache_dir st) (uuid4 L (uuid_count st)) in
  let fc := file_cache st ++ [(u, mkCachedFile u (JStr p) t l)] in
  _get_cached_file_path L u st
  = (Ok (JStr p),
     set_fs (<[idx := json_dumps L (encode_file_cache fc)]> (<[p := c]> (fs st)))
       (set_events (events st ++ [EvDownload u p; EvOpenRead p; EvOpenRead p;
                                  EvDump idx])
          (set_file_cache fc (set_uuid_count (S (uuid_count st)) st)))).
Proof.
  intros Hg Hidx Hc Hp Hm p fc.
  rewrite (get_cached_file_path_miss u st Hg).
  erewrite bind_ok.
  2:{ rewrite (download_and_cache_run u c j st Hc Hp).
      rewrite (entry_fields_some j t l Hm).
      rewrite (set_fresh _ _ _ Hg).
      apply save_cache_some. exact Hidx. }
  erewrite bind_ok.
  2:{ apply file_cache_getitem_some. simpl.
      rewrite <- (set_fresh _ _ _ Hg). apply get_set_eq. }
  unfold ret, set_fs, set_events, set_file_cache, set_uuid_count. simpl.
  now rewrite <- app_assoc.
Qed.

(** C3. For a url with no entry, when the transfer succeeds and the
    fetched document carries [metadata] with [timestamp] and [ttl]:
    [get_from_url] starts exactly one transfer, appends exactly one entry
    for the url to the store, and writes the index document exactly once,
    with the new store in it; it returns the parsed document. *)
Theorem cold_miss_fetches_once (u idx : string) (c : list byte) (j t l : json)
    (st : state) :
  PyDict.get u (file_cache st) = None ->
  cache_metadata_file st = Some idx ->
  curl_perform L u = (c, None) ->
  parsed L c = Ok j ->
  metadata_fields j = Some (t, l) ->
  let p := os_path_join (cache_dir st) (uuid4 L (uuid_count st)) in
  let st' := (get_from_url L u st).2 in
  count_downloads st' = S (count_downloads st) /\
  file_cache st' = file_cache st ++ [(u, mkCachedFile u (JStr p) t l)] /\
  count_dumps st' = S (count_dumps st) /\
  fs st' !! idx = Some (json_dumps L (encode_file_cache (file_cache st'))) /\
  (p <> idx -> (get_from_url L u st).1 = Ok j).
Proof.
  intros Hg Hidx Hc Hp Hm p st'.
  pose proof (cold_miss_path u idx c j t l st Hg Hidx Hc Hp Hm) as Hpath.
  cbv zeta in Hpath. fold p in Hpath.
  set (st2 := set_fs _ _) in Hpath.
  assert (E : get_from_url L u st
              = bind (_read_cached_file L (JStr p))
                     (fun fc => of_option (json_loads L fc) JSONDecodeError) st2).
  { unfold get_from_url. erewrite bind_ok by exact Hpath. reflexivity. }
  assert (Hr : only_reads (JStr p) st2 st').
  { unfold st'. rewrite E, read_then_parse_state.
    apply read_cached_file_only_reads. }
  destruct (only_reads_counts _ _ _ Hr) as (H1 & H2 & H3 & H4 & _).
  rewrite H2, H3, H4, H1.
  unfold count_downloads, count_dumps. simpl.
  rewrite !filter_app, !length_app. simpl.
  repeat split; try lia.
  - apply lookup_insert_eq.
  - intros Hne. rewrite E, <- Hp. apply read_then_parse_some. simpl.
    rewrite lookup_insert_ne by congruence. apply lookup_insert_eq.
Qed.

(** C2, as the code has it. For a url with no entry, when the transfer
    succeeds and the fetched document parses but does not carry [metadata]
    with [timestamp] and [ttl]: [get_from_url] raises, the store is as it
    was and the index document is not written. The exception is the
    metadata error when the document is an object without the key
    [metadata]; when [metadata] is an object short of a field it is the
    [KeyError] of that field. *)
Theorem missing_metadata_leaves_store (u : string) (c : list byte) (j : json)
    (st : state) :
  PyDict.get u (file_cache st) = None ->
  curl_perform L u = (c, None) ->
  parsed L c = Ok j ->
  metadata_fields j = None ->
  let p := os_path_join (cache_dir st) (uuid4 L (uuid_count st)) in
  let st' := (get_from_url L u st).2 in
  (exists e, (get_from_url L u st).1 = Raise e /\ entry_fields j = Raise e) /\
  file_cache st' = file_cache st /\
  count_dumps st' = count_dumps st /\
  fs st' = <[p := c]> (fs st) /\
  (forall d, j = JDict d -> PyDict.get "metadata" d = None ->
             (get_from_url L u st).1 = Raise MetadataMissing) /\
  (forall d m, j = JDict d -> PyDict.get "metadata" d = Some (JDict m) ->
             (get_from_url L u st).1 = Raise (KeyError "timestamp") \/
             (get_from_url L u st).1 = Raise (KeyError "ttl")).
Proof.
  intros Hg Hc Hp Hm p st'.
  destruct (entry_fields_none j Hm) as (e & He).
  assert (E : get_from_url L u st
              = (Raise e,
                 set_events (events st ++ [EvDownload u p; EvOpenRead p; EvOpenRead p])
                   (set_fs (<[p := c]> (fs st))
                      (set_uuid_count (S (uuid_count st)) st)))).
  { unfold get_from_url. erewrite bind_raise; [reflexivity|].
    rewrite (get_cached_file_path_miss u st Hg).
    erewrite bind_raise; [reflexivity|].
    rewrite (download_and_cache_run u c j st Hc Hp), He. reflexivity. }
  unfold st'. rewrite E. simpl.
  split; [eauto|]. split; [reflexivity|]. split.
  { unfold count_dumps. simpl. rewrite filter_app, length_app. simpl. lia. }
  split; [reflexivity|]. split.
  - intros d -> Hd. revert He.
    unfold entry_fields, py_contains, PyDict.mem. rewrite Hd. simpl. congruence.
  - intros d m -> Hd. revert He.
    unfold entry_fields, py_contains, py_getitem, PyDict.mem. rewrite Hd. simpl.
    destruct (PyDict.get "timestamp" m); [|intros [= <-]; now left].
    destruct (PyDict.get "ttl" m); [discriminate | intros [= <-]; now right].
Qed.
End ColdMiss.

Lemma cold_miss_fetches_once_witness :
  let st' := (get_from_url Demo.libs Demo.a_url Demo.empty_state).2 in
  count_downloads st' = 1%nat /\ count_dumps st' = 1%nat /\
  length (file_cache st') = 1%nat /\
  (get_from_url Demo.libs Demo.a_url Demo.empty_state).1 = Ok Demo.good_doc.
Proof.
  assert (Hp : parsed Demo.libs (String.list_byte_of_string (Demo.print Demo.good_doc))
               = Ok Demo.good_doc) by (vm_compute; reflexivity).
  destruct (cold_miss_fetches_once Demo.libs Demo.a_url Demo.index_path _
              Demo.good_doc (JInt 1000) (JInt 60) Demo.empty_state
              eq_refl eq_refl eq_refl Hp eq_refl) as (H1 & H2 & H3 & _ & H5).
  split; [exact H1|]. split; [exact H3|]. split.
  - rewrite H2. reflexivity.
  - apply H5. vm_compute. discriminate.
Defined.

Lemma missing_metadata_leaves_store_witness :
  (get_from_url Demo.libs Demo.b_url Demo.empty_state).1 = Raise MetadataMissing /\
  file_cache (get_from_url Demo.libs Demo.b_url Demo.empty_state).2 = [] /\
  count_dumps (get_from_url Demo.libs Demo.b_url Demo.empty_state).2 = 0%nat.
Proof.
  assert (Hp : parsed Demo.libs
                 (String.list_byte_of_string (Demo.print Demo.no_metadata_doc))
               = Ok Demo.no_metadata_doc) by (vm_compute; reflexivity).
  destruct (missing_metadata_leaves_store Demo.libs Demo.b_url _
              Demo.no_metadata_doc Demo.empty_state eq_refl eq_refl Hp eq_refl)
    as (_ & H2 & H3 & _ & H5 & _).
  split; [|split; [exact H2 | exact H3]].
  apply (H5 _ eq_refl). reflexivity.
Defined.

(** C2, as stated, fails: a fetched document whose [metadata] has a
    [timestamp] but no [ttl] parses and lacks a required field, yet the call
    ends with [KeyError "ttl"], not with the metadata error. *)
Lemma missing_ttl_raises_key_error :
  PyDict.get Demo.c_url (file_cache Demo.empty_state) = None /\
  parsed Demo.libs (curl_perform Demo.libs Demo.c_url).1 = Ok Demo.no_ttl_doc /\
  metadata_fields Demo.no_ttl_doc = None /\
  (get_from_url Demo.libs Demo.c_url Demo.empty_state).1 = Raise (KeyError "ttl") /\
  (get_from_url Demo.libs Demo.c_url Demo.empty_state).1 <> Raise MetadataMissing.
Proof.
  assert (E : (get_from_url Demo.libs Demo.c_url Demo.empty_state).1
              = Raise (KeyError "ttl")) by (vm_compute; reflexivity).
  repeat split; try (vm_compute; reflexivity).
  rewrite E. discriminate.
Qed.

(** ** A hit on an expired entry *)

Section ExpiredHit.
Context (L : Libs).

Lemma os_remove_some p c st :
  fs st !! p = Some c ->
  os_remove (JStr p) st
  = (Ok tt, set_fs (delete p (fs st)) (set_events (events st ++ [EvRemove p]) st)).
Proof.
  intros H. unfold os_remove, log, modify, get_state, bind; simpl.
  rewrite H. reflexivity.
Qed.

Lemma remove_expired_file_some cf p c st :
  path cf = JStr p ->
  fs st !! p = Some c ->
  PyDict.mem (url cf) (file_cache st) = true ->
  _remove_expired_file cf st
  = (Ok tt,
     set_file_cache (PyDict.del (url cf) (file_cache st))
       (set_fs (delete p (fs st)) (set_events (events st ++ [EvRemove p]) st))).
Proof.
  intros Hp Hf Hm. unfold _remove_expired_file. rewrite Hp.
  erewrite bind_ok by (apply (os_remove_some p c); exact Hf).
  erewrite bind_ok by reflexivity.
  simpl. rewrite Hm. reflexivity.
Qed.

(** The run of [get_from_url] on an expired entry whose file is there:
    the file and the entry are removed, and the call to the undefined
    [_cache_file] ends it before anything is fetched. *)
Lemma expired_hit_raises u cf t l p c st :
  PyDict.get u (file_cache st) = Some cf ->
  url cf = u ->
  timestamp cf = JInt t -> ttl cf = JInt l -> now st - t > l ->
  path cf = JStr p ->
  fs st !! p = Some c ->
  get_from_url L u st
  = (Raise (AttributeError "_cache_file"),
     set_file_cache (PyDict.del u (file_cache st))
       (set_fs (delete p (fs st)) (set_events (events st ++ [EvRemove p]) st))).
Proof.
  intros Hg Hu Ht Hl Hexp Hp Hf.
  assert (Hm : PyDict.mem u (file_cache st) = true) by (apply mem_get; eauto).
  assert (Hlt : Z.ltb l (now st - t) = true) by (apply Z.ltb_lt; lia).
  unfold get_from_url. erewrite bind_raise; [reflexivity|].
  unfold _get_cached_file_path.
  erewrite bind_ok by reflexivity. rewrite Hm. cbv beta iota.
  erewrite bind_raise; [reflexivity|].
  erewrite bind_ok by (apply file_cache_getitem_some; exact Hg).
  erewrite bind_ok by (apply (is_expired_int cf st t l); assumption).
  rewrite Hlt. cbv beta iota. change (negb true) with false. cbv iota.
  erewrite bind_ok.
  2:{ apply (remove_expired_file_some cf p c); [exact Hp | exact Hf |].
      rewrite Hu. exact Hm. }
  rewrite Hu. reflexivity.
Qed.
End ExpiredHit.

(** C1, on the code. The entry was captured at 1000 with a ttl of 60 and the
    clock reads 4600: the call removes the file and the entry, then raises
    [AttributeError] on [_cache_file]; no transfer is started and the store
    is left without an entry for the url. *)
Theorem expired_hit_never_refetches :
  let st := Demo.cached_state 4600 in
  let st' := (get_from_url Demo.libs Demo.a_url st).2 in
  PyDict.get Demo.a_url (file_cache st) = Some Demo.a_entry /\
  is_expired Demo.a_entry st = (Ok true, st) /\
  (get_from_url Demo.libs Demo.a_url st).1 = Raise (AttributeError "_cache_file") /\
  fs st' !! "/cache/old" = None /\
  count_downloads st' = 0%nat /\
  PyDict.get Demo.a_url (file_cache st') = None.
Proof.
  cbv zeta.
  assert (Hexp : now (Demo.cached_state 4600) - 1000 > 60) by (simpl; lia).
  rewrite (expired_hit_raises Demo.libs Demo.a_url Demo.a_entry 1000 60
             "/cache/old" (String.list_byte_of_string (Demo.print Demo.good_doc))
             (Demo.cached_state 4600) eq_refl eq_refl eq_refl eq_refl Hexp
             eq_refl eq_refl).
  simpl. repeat split.
Qed.

(** ** Entries whose file is gone or whose fields are not numbers *)

Section EdgeHits.
Context (L : Libs).

Lemma is_bz2_none p st :
  fs st !! p = None ->
  _is_bz2 (JStr p) st
  = (Raise (FileNotFoundError p), set_events (events st ++ [EvOpenRead p]) st).
Proof.
  intros H. unfold _is_bz2.
  erewrite bind_raise by (apply open_read_none; exact H). reflexivity.
Qed.

(** X1. A fresh entry whose file is no longer on disk is not fetched again:
    the call raises [FileNotFoundError] for the entry's path after one
    attempt to open it, and store and files stay as they were. *)
Theorem fresh_hit_missing_file (u p : string) (cf : CachedFile) (t l : Z)
    (st : state) :
  PyDict.get u (file_cache st) = Some cf ->
  timestamp cf = JInt t -> ttl cf = JInt l -> now st - t <= l ->
  path cf = JStr p ->
  fs st !! p = None ->
  get_from_url L u st
  = (Raise (FileNotFoundError p), set_events (events st ++ [EvOpenRead p]) st).
Proof.
  intros Hg Ht Hl Hfresh Hp Hf.
  rewrite (get_from_url_fresh L u cf t l st Hg Ht Hl Hfresh), Hp.
  erewrite bind_raise; [reflexivity|].
  unfold _read_cached_file.
  erewrite bind_raise by (apply is_bz2_none; exact Hf). reflexivity.
Qed.

Lemma os_remove_none p st :
  fs st !! p = None ->
  os_remove (JStr p) st
  = (Raise (FileNotFoundError p), set_events (events st ++ [EvRemove p]) st).
Proof.
  intros H. unfold os_remove, log, modify, get_state, bind, raise; simpl.
  rewrite H. reflexivity.
Qed.

(** X2. An expired entry whose file is no longer on disk cannot be evicted:
    [os.remove] raises [FileNotFoundError] before the entry is deleted, so
    the call raises, the entry stays in the store, and nothing is fetched. *)
Theorem expired_hit_missing_file (u p : string) (cf : CachedFile) (t l : Z)
    (st : state) :
  PyDict.get u (file_cache st) = Some cf ->
  timestamp cf = JInt t -> ttl cf = JInt l -> now st - t > l ->
  path cf = JStr p ->
  fs st !! p = None ->
  get_from_url L u st
  = (Raise (FileNotFoundError p), set_events (events st ++ [EvRemove p]) st).
Proof.
  intros Hg Ht Hl Hexp Hp Hf.
  assert (Hm : PyDict.mem u (file_cache st) = true) by (apply mem_get; eauto).
  assert (Hlt : Z.ltb l (now st - t) = true) by (apply Z.ltb_lt; lia).
  unfold get_from_url. erewrite bind_raise; [reflexivity|].
  unfold _get_cached_file_path.
  erewrite bind_ok by reflexivity. rewrite Hm. cbv beta iota.
  erewrite bind_raise; [reflexivity|].
  erewrite bind_ok by (apply file_cache_getitem_some; exact Hg).
  erewrite bind_ok by (apply (is_expired_int cf st t l); assumption).
  rewrite Hlt. cbv beta iota. change (negb true) with false. cbv iota.
  erewrite bind_raise; [reflexivity|].
  unfold _remove_expired_file. rewrite Hp.
  erewrite bind_raise by (apply os_remove_none; exact Hf). reflexivity.
Qed.

Lemma is_expired_not_number cf st :
  is_number (timestamp cf) = false \/ is_number (ttl cf) = false ->
  is_expired cf st = (Raise TypeError, st).
Proof.
  unfold is_expired, time_time, bind, lift, ret, get_state, py_int, is_number.
  intros [H|H].
  - destruct (timestamp cf); try discriminate; reflexivity.
  - destruct (timestamp cf); destruct (ttl cf); try discriminate; reflexivity.
Qed.

(** X3. An entry whose [timestamp] or [ttl] is not a number (the fields are
    stored as the document or the index gave them) makes every lookup of
    its url raise [TypeError], with the state untouched: the file is neither
    read nor removed, and nothing is fetched. *)
Theorem lookup_of_non_numeric_entry (u : string) (cf : CachedFile) (st : state) :
  PyDict.get u (file_cache st) = Some cf ->
  is_number (timestamp cf) = false \/ is_number (ttl cf) = false ->
  get_from_url L u st = (Raise TypeError, st).
Proof.
  intros Hg Hn.
  assert (Hm : PyDict.mem u (file_cache st) = true) by (apply mem_get; eauto).
  unfold get_from_url. erewrite bind_raise; [reflexivity|].
  unfold _get_cached_file_path.
  erewrite bind_ok by reflexivity. rewrite Hm. cbv beta iota.
  erewrite bind_raise; [reflexivity|].
  erewrite bind_ok by (apply file_cache_getitem_some; exact Hg).
  erewrite bind_raise by (apply is_expired_not_number; exact Hn). reflexivity.
Qed.

(** X4. An expired entry whose file is on disk, for any store whose entry
    for the url carries that url: the file and the entry are removed, then
    the call raises [AttributeError]; no transfer is started and the index
    document is not rewritten, so the eviction is not persisted. *)
Theorem expired_hit_evicts_then_raises (u p : string) (cf : CachedFile) (t l : Z)
    (c : list byte) (st : state) :
  PyDict.get u (file_cache st) = Some cf ->
  url cf = u ->
  timestamp cf = JInt t -> ttl cf = JInt l -> now st - t > l ->
  path cf = JStr p ->
  fs st !! p = Some c ->
  let st' := (get_from_url L u st).2 in
  (get_from_url L u st).1 = Raise (AttributeError "_cache_file") /\
  fs st' = delete p (fs st) /\
  file_cache st' = PyDict.del u (file_cache st) /\
  count_downloads st' = count_downloads st /\
  count_dumps st' = count_dumps st /\
  count_removes st' = S (count_removes st).
Proof.
  intros Hg Hu Ht Hl Hexp Hp Hf. cbv zeta.
  rewrite (expired_hit_raises L u cf t l p c st Hg Hu Ht Hl Hexp Hp Hf). simpl.
  unfold count_downloads, count_dumps, count_removes. simpl.
  rewrite !filter_app, !length_app. simpl. repeat split; lia.
Qed.
End EdgeHits.

Lemma fresh_hit_missing_file_witness :
  (get_from_url Demo.libs Demo.a_url (Demo2.lost_state 1030)).1
  = Raise (FileNotFoundError "/cache/old").
Proof.
  assert (Hle : now (Demo2.lost_state 1030) - 1000 <= 60) by (simpl; lia).
  rewrite (fresh_hit_missing_file Demo.libs Demo.a_url "/cache/old" Demo.a_entry
             1000 60 (Demo2.lost_state 1030) eq_refl eq_refl eq_refl Hle
             eq_refl eq_refl).
  reflexivity.
Defined.

Lemma expired_hit_missing_file_witness :
  (get_from_url Demo.libs Demo.a_url (Demo2.lost_state 4600)).1
  = Raise (FileNotFoundError "/cache/old") /\
  file_cache (get_from_url Demo.libs Demo.a_url (Demo2.lost_state 4600)).2
  = Demo.a_store.
Proof.
  assert (Hgt : now (Demo2.lost_state 4600) - 1000 > 60) by (simpl; lia).
  rewrite (expired_hit_missing_file Demo.libs Demo.a_url "/cache/old" Demo.a_entry
             1000 60 (Demo2.lost_state 4600) eq_refl eq_refl eq_refl Hgt
             eq_refl eq_refl).
  split; reflexivity.
Defined.

Lemma lookup_of_non_numeric_entry_witness :
  get_from_url Demo.libs Demo.a_url Demo2.odd_state = (Raise TypeError, Demo2.odd_state).
Proof.
  apply (lookup_of_non_numeric_entry Demo.libs Demo.a_url Demo2.odd_entry
           Demo2.odd_state eq_refl).
  right. reflexivity.
Defined.

Lemma expired_hit_evicts_then_raises_witness :
  let st' := (get_from_url Demo.libs Demo.a_url (Demo.cached_state 4600)).2 in
  file_cache st' = [] /\ count_downloads st' = 0%nat /\ count_dumps st' = 0%nat.
Proof.
  assert (Hgt : now (Demo.cached_state 4600) - 1000 > 60) by (simpl; lia).
  destruct (expired_hit_evicts_then_raises Demo.libs Demo.a_url "/cache/old"
              Demo.a_entry 1000 60 _ (Demo.cached_state 4600)
              eq_refl eq_refl eq_refl eq_refl Hgt eq_refl eq_refl)
    as (_ & _ & H3 & H4 & H5 & _).
  split; [exact H3 | split; [exact H4 | exact H5]].
Defined.

(** ** A miss that does not go through *)

#[local] Instance quiet_preorder : PreOrder quiet.
Proof.
  split.
  - intros st. unfold quiet. repeat split; reflexivity.
  - intros a b c (S1 & H1 & H2 & H3 & H4 & H5) (S2 & K1 & K2 & K3 & K4 & K5).
    unfold quiet. split; [etransitivity; eassumption|].
    repeat split; congruence.
Qed.

Lemma quiet_same_self a b : quiet a b -> same_self a b.
Proof. now intros (H & _). Qed.

Lemma quiet_read_event s st :
  quiet st (set_events (events st ++ [EvOpenRead s]) st).
Proof.
  unfold quiet, same_self, count_downloads, count_dumps, count_removes. simpl.
  rewrite !filter_app, !length_app. simpl. repeat split; lia.
Qed.

Lemma open_read_quiet p : frame quiet (open_read p).
Proof. unfold open_read. frame_auto. apply quiet_read_event. Qed.

Section FailedMiss.
Context (L : Libs).

Lemma read_cached_file_quiet p : frame quiet (_read_cached_file L p).
Proof.
  unfold _read_cached_file, _is_bz2. frame_auto; apply open_read_quiet.
Qed.

Lemma get_file_metadata_quiet p : frame quiet (_get_file_metadata L p).
Proof.
  unfold _get_file_metadata. frame_auto; apply read_cached_file_quiet.
Qed.

Lemma download_any u f st :
  exists r c,
    _download L u f st
    = (r, set_fs (<[f := c]> (fs st))
                 (set_events (events st ++ [EvDownload u f]) st)).
Proof.
  unfold _download, try_except.
  erewrite bind_ok by reflexivity. erewrite bind_ok by reflexivity.
  destruct (curl_perform L u) as [c [ex|]].
  - erewrite bind_ok by reflexivity. unfold raise, set_fs, set_events. simpl.
    do 2 eexists. now rewrite insert_insert_eq.
  - erewrite bind_ok by reflexivity. unfold ret, set_fs, set_events. simpl.
    do 2 eexists. now rewrite insert_insert_eq.
Qed.

Lemma download_failed u f c ex st :
  curl_perform L u = (c, Some ex) ->
  _download L u f st
  = (Raise (Exception_ ("Downloading " +:+ u +:+ " failed: " +:+ exn_str L ex)),
     set_fs (<[f := c]> (fs st)) (set_events (events st ++ [EvDownload u f]) st)).
Proof.
  intros Hc. unfold _download, try_except.
  erewrite bind_ok by reflexivity. erewrite bind_ok by reflexivity.
  rewrite Hc. erewrite bind_ok by reflexivity.
  unfold raise, set_fs, set_events. simpl. now rewrite insert_insert_eq.
Qed.

(** X5. On a miss whose transfer fails, [get_from_url] raises the
    "Downloading ... failed" exception that wraps the transfer's error; one
    transfer was started, the store and the index document are as before,
    and the file the transfer was writing is left on disk with the bytes
    that arrived. *)
Theorem failed_transfer_on_miss (u : string) (c : list byte) (ex : exn)
    (st : state) :
  PyDict.get u (file_cache st) = None ->
  curl_perform L u = (c, Some ex) ->
  let p := os_path_join (cache_dir st) (uuid4 L (uuid_count st)) in
  get_from_url L u st
  = (Raise (Exception_ ("Downloading " +:+ u +:+ " failed: " +:+ exn_str L ex)),
     set_events (events st ++ [EvDownload u p])
       (set_fs (<[p := c]> (fs st)) (set_uuid_count (S (uuid_count st)) st))).
Proof.
  intros Hg Hc p.
  unfold get_from_url. erewrite bind_raise; [reflexivity|].
  rewrite (get_cached_file_path_miss L u st Hg).
  erewrite bind_raise; [reflexivity|].
  unfold _download_and_cache_file.
  erewrite bind_ok by reflexivity. erewrite bind_ok by reflexivity.
  erewrite bind_raise by (apply download_failed; exact Hc).
  reflexivity.
Qed.

Lemma get_file_metadata_unparsed p c e st :
  fs st !! p = Some c ->
  parsed L c = Raise e ->
  _get_file_metadata L (JStr p) st
  = (Raise e, set_events (events st ++ [EvOpenRead p; EvOpenRead p]) st).
Proof.
  intros Hf Hp. unfold _get_file_metadata.
  erewrite bind_run by (apply read_cached_file_some; exact Hf).
  unfold parsed in Hp.
  destruct (decoded L c) as [fc|e']; [|now inversion Hp].
  destruct (json_loads L fc); [discriminate|]. now inversion Hp.
Qed.

(** X6. On a miss whose transfer succeeds but whose file cannot be decoded
    or parsed, [get_from_url] raises the error of the decoding or parsing
    ([Failed to decompress], [UnicodeDecodeError] or [JSONDecodeError]); the
    store and the index document are as before and the downloaded file stays
    on disk with no entry pointing at it. *)
Theorem unparseable_fetch_on_miss (u : string) (c : list byte) (e : exn)
    (st : state) :
  PyDict.get u (file_cache st) = None ->
  curl_perform L u = (c, None) ->
  parsed L c = Raise e ->
  let p := os_path_join (cache_dir st) (uuid4 L (uuid_count st)) in
  get_from_url L u st
  = (Raise e,
     set_events (events st ++ [EvDownload u p; EvOpenRead p; EvOpenRead p])
       (set_fs (<[p := c]> (fs st)) (set_uuid_count (S (uuid_count st)) st))).
Proof.
  intros Hg Hc Hp p.
  unfold get_from_url. erewrite bind_raise; [reflexivity|].
  rewrite (get_cached_file_path_miss L u st Hg).
  erewrite bind_raise; [reflexivity|].
  unfold _download_and_cache_file.
  erewrite bind_ok by reflexivity. erewrite bind_ok by reflexivity.
  erewrite bind_ok by (apply download_ok; exact Hc).
  erewrite bind_raise.
  2:{ apply (get_file_metadata_unparsed _ c e); [apply lookup_insert_eq | exact Hp]. }
  unfold set_events, set_fs, set_uuid_count. simpl. now rewrite <- app_assoc.
Qed.

(** X7. [_download_and_cache_file] is all or nothing, on any store and
    whatever the transfer and the document do: it starts exactly one
    transfer and draws exactly one file name; if it raises, the store is as
    it was and the index document was not written; if it returns, the store
    is the old one with the url bound to an entry for the downloaded file,
    and the index document was written once with that store. *)
Theorem download_and_cache_file_all_or_nothing (u : string) (st : state) :
  let r := _download_and_cache_file L u st in
  let p := os_path_join (cache_dir st) (uuid4 L (uuid_count st)) in
  count_downloads r.2 = S (count_downloads st) /\
  uuid_count r.2 = S (uuid_count st) /\
  match r.1 with
  | Raise _ =>
      file_cache r.2 = file_cache st /\ count_dumps r.2 = count_dumps st
  | Ok _ =>
      (exists t l,
         file_cache r.2
         = PyDict.set u (mkCachedFile u (JStr p) t l) (file_cache st)) /\
      (forall idx, cache_metadata_file st = Some idx ->
         count_dumps r.2 = S (count_dumps st) /\
         fs r.2 !! idx = Some (json_dumps L (encode_file_cache (file_cache r.2))))
  end.
Proof.
  cbv zeta. destruct (_download_and_cache_file L u st) as [res st'] eqn:E.
  cbn [fst snd]. unfold _download_and_cache_file in E.
  erewrite bind_ok in E by reflexivity. cbv beta zeta in E.
  erewrite bind_ok in E by reflexivity. cbv beta zeta in E.
  set (p := os_path_join (cache_dir st) (uuid4 L (uuid_count st))) in *.
  destruct (download_any u p (set_uuid_count (S (uuid_count st)) st))
    as (r & c & Hd).
  erewrite bind_run in E by exact Hd.
  set (s1 := set_fs _ _) in *.
  assert (H1 : count_downloads s1 = S (count_downloads st) /\
               uuid_count s1 = S (uuid_count st) /\
               file_cache s1 = file_cache st /\
               count_dumps s1 = count_dumps st /\
               cache_metadata_file s1 = cache_metadata_file st).
  { unfold s1, count_downloads, count_dumps. simpl.
    rewrite !filter_app, !length_app. simpl. repeat split; lia. }
  destruct H1 as (D1 & U1 & F1 & P1 & M1).
  destruct r as [[]|e]; [|inversion E; subst; auto].
  pose proof (get_file_metadata_quiet (JStr p) s1) as Q.
  unfold bind at 1 in E.
  destruct (_get_file_metadata L (JStr p) s1) as [[m|e] s2]; simpl in Q;
    destruct Q as ((F2 & M2 & _ & _) & _ & U2 & D2 & P2 & _);
    [|inversion E; subst; repeat split; congruence].
  unfold bind, lift in E.
  destruct (py_getitem m "timestamp") as [t|e];
    [|inversion E; subst; repeat split; congruence].
  destruct (py_getitem m "ttl") as [l|e];
    [|inversion E; subst; repeat split; congruence].
  unfold modify, save_cache, bind, get_state, log, modify in E. simpl in E.
  rewrite M2, M1 in E.
  destruct (cache_metadata_file st) as [idx|] eqn:Hidx; inversion E; subst;
    clear E; simpl.
  - split; [|split; [congruence|split]].
    + unfold count_downloads in *. simpl. rewrite filter_app, length_app. simpl.
      lia.
    + exists t, l. now rewrite F2, F1.
    + intros idx' [= <-]. split; [|apply lookup_insert_eq].
      unfold count_dumps in *. simpl. rewrite filter_app, length_app. simpl. lia.
  - unfold count_downloads in *. simpl.
    split; [congruence|]. split; [congruence|]. split.
    + exists t, l. now rewrite F2, F1.
    + intros idx' [=].
Qed.
End FailedMiss.

Lemma failed_transfer_on_miss_witness :
  let r := get_from_url Demo.libs Demo2.d_url Demo.empty_state in
  (exists msg, r.1 = Raise (Exception_ msg)) /\
  file_cache r.2 = [] /\ count_downloads r.2 = 1%nat /\ count_dumps r.2 = 0%nat /\
  fs r.2 !! "/cache/uuid-0" = Some [].
Proof.
  cbv zeta.
  rewrite (failed_transfer_on_miss Demo.libs Demo2.d_url []
             (CurlError "Couldn't read a file:// file") Demo.empty_state
             eq_refl eq_refl).
  split; [eexists; reflexivity|]. repeat split.
Defined.

Lemma unparseable_fetch_on_miss_witness :
  let r := get_from_url Demo2.garbled_libs Demo2.d_url Demo.empty_state in
  r.1 = Raise JSONDecodeError /\ file_cache r.2 = [] /\
  fs r.2 !! "/cache/uuid-0" = Some (String.list_byte_of_string "{oops").
Proof.
  cbv zeta.
  rewrite (unparseable_fetch_on_miss Demo2.garbled_libs Demo2.d_url
             (String.list_byte_of_string "{oops") JSONDecodeError
             Demo.empty_state eq_refl eq_refl eq_refl).
  repeat split.
Defined.

(** ** A call for one url leaves the other entries alone *)

Lemma get_set_ne {V} k k' (v : V) d :
  k' <> k -> PyDict.get k' (PyDict.set k v d) = PyDict.get k' d.
Proof.
  intros Hne. induction d as [|[k0 v0] d IH]; simpl.
  - destruct (String.eqb_spec k' k); [contradiction | reflexivity].
  - destruct (String.eqb_spec k k0) as [->|H0]; simpl.
    + destruct (String.eqb_spec k' k0); [contradiction | reflexivity].
    + now rewrite IH.
Qed.

Lemma get_del_ne {V} k k' (d : list (string * V)) :
  k' <> k -> PyDict.get k' (PyDict.del k d) = PyDict.get k' d.
Proof.
  intros Hne. induction d as [|[k0 v0] d IH]; simpl; [reflexivity|].
  destruct (String.eqb_spec k k0) as [->|H0]; simpl.
  - destruct (String.eqb_spec k' k0); [contradiction | reflexivity].
  - now rewrite IH.
Qed.

Lemma get_del_eq {V} k (d : list (string * V)) :
  NoDup (PyDict.keys d) -> PyDict.get k (PyDict.del k d) = None.
Proof.
  unfold PyDict.keys. induction d as [|[k0 v0] d IH]; simpl; [reflexivity|].
  intros Hnd. apply NoDup_cons in Hnd as [Hnin Hnd].
  destruct (String.eqb_spec k k0) as [->|H0]; simpl.
  - now apply get_none_not_key.
  - destruct (String.eqb_spec k k0); [contradiction | auto].
Qed.

Lemma get_inv_url u cf c :
  store_inv c -> PyDict.get u c = Some cf -> url cf = u.
Proof.
  induction 1 as [|[k v] c Hk Hc IH]; simpl; [discriminate|].
  destruct (String.eqb_spec u k) as [->|Hne]; [|exact IH].
  now intros [= <-].
Qed.

#[local] Instance others_kept_preorder u : PreOrder (others_kept u).
Proof.
  split.
  - intros st u' _. reflexivity.
  - intros a b c H1 H2 u' Hne. now rewrite H2, H1.
Qed.

Lemma same_self_others_kept u a b : same_self a b -> others_kept u a b.
Proof. intros (H & _) u' _. now rewrite H. Qed.

Lemma bind_at {A B} (R : relation state) `{!PreOrder R} (m : M A) (k : A -> M B) st :
  R st (m st).2 -> (forall a, frame R (k a)) -> R st (bind m k st).2.
Proof.
  intros Hm Hk. unfold bind. destruct (m st) as [[a|e] st']; simpl in *; [|exact Hm].
  etransitivity; [exact Hm | apply Hk].
Qed.

Section OtherEntries.
Context (L : Libs).

Lemma download_and_cache_file_others u :
  frame (others_kept u) (_download_and_cache_file L u).
Proof.
  unfold _download_and_cache_file. frame_auto;
    try (apply (frame_weaken same_self); [apply same_self_others_kept|]);
    try apply download_self; try apply get_file_metadata_self;
    try apply save_cache_self.
  - intros u' _. reflexivity.
  - intros u' Hne. simpl. now apply get_set_ne.
Qed.

Lemma remove_expired_file_others cf :
  frame (others_kept (url cf)) (_remove_expired_file cf).
Proof.
  unfold _remove_expired_file. frame_auto;
    try (apply (frame_weaken same_self); [apply same_self_others_kept|]);
    try apply os_remove_self.
  intros u' Hne. simpl. now apply get_del_ne.
Qed.

(** X8. Whatever a call of [get_from_url] for a url does, hit, miss,
    eviction or failure, it leaves every binding of the store for another
    url as it was, provided every entry is stored under its own url. *)
Theorem get_from_url_keeps_other_entries (u : string) (st : state) :
  store_inv (file_cache st) ->
  forall u', u' <> u ->
    PyDict.get u' (file_cache (get_from_url L u st).2)
    = PyDict.get u' (file_cache st).
Proof.
  intros Hinv.
  change (others_kept u st (get_from_url L u st).2).
  unfold get_from_url. apply bind_at; [apply _| |].
  2:{ intros p. frame_auto;
        apply (frame_weaken same_self);
        try apply same_self_others_kept; apply read_cached_file_self. }
  unfold _get_cached_file_path. erewrite bind_ok by reflexivity.
  apply bind_at; [apply _| |].
  2:{ intros _. unfold file_cache_getitem. frame_auto. }
  destruct (PyDict.get u (file_cache st)) as [cf|] eqn:Hg.
  - assert (Hm : PyDict.mem u (file_cache st) = true) by (apply mem_get; eauto).
    rewrite Hm.
    erewrite bind_ok by (apply file_cache_getitem_some; exact Hg).
    pose proof (get_inv_url u cf _ Hinv Hg) as Hu.
    assert (F : frame (others_kept u)
                  (expired <- is_expired cf;;
                   (if negb expired then ret tt
                    else _remove_expired_file cf;; _cache_file u))).
    { unfold is_expired, time_time, _cache_file. frame_auto.
      rewrite <- Hu. apply remove_expired_file_others. }
    apply F.
  - unfold PyDict.mem. rewrite Hg. apply download_and_cache_file_others.
Qed.
End OtherEntries.

Lemma get_from_url_keeps_other_entries_witness :
  PyDict.get Demo.a_url
    (file_cache (get_from_url Demo.libs Demo.c_url (Demo.cached_state 1030)).2)
  = Some Demo.a_entry.
Proof.
  assert (Hi : store_inv (file_cache (Demo.cached_state 1030))).
  { repeat constructor. }
  rewrite (get_from_url_keeps_other_entries Demo.libs Demo.c_url
             (Demo.cached_state 1030) Hi Demo.a_url); [reflexivity|].
  vm_compute. discriminate.
Defined.

(** ** Loading any index document *)

Section LoadDocument.
Context (L : Libs).

Lemma load_item_some k r p t l st :
  record_fields r = Some (p, t, l) ->
  load_item (k, r) st
  = (Ok tt, set_file_cache (PyDict.set k (mkCachedFile k p t l) (file_cache st)) st).
Proof.
  unfold record_fields, load_item, bind, lift, py_getitem. simpl.
  destruct r as [| | | | |d]; try discriminate.
  destruct (PyDict.get "path" d); [|discriminate].
  destruct (PyDict.get "timestamp" d); [|discriminate].
  destruct (PyDict.get "ttl" d); [|discriminate].
  now intros [= -> -> ->].
Qed.

Lemma load_item_none k r st :
  record_fields r = None ->
  exists e, load_item (k, r) st = (Raise e, st) /\
            (e = TypeError \/ exists f, e = KeyError f).
Proof.
  unfold record_fields, load_item, bind, lift, py_getitem. simpl.
  destruct r as [| | | | |d]; try (intros _; eexists; split; [reflexivity | now left]).
  destruct (PyDict.get "path" d);
    [|intros _; eexists; split; [reflexivity | right; eauto]].
  destruct (PyDict.get "timestamp" d);
    [|intros _; eexists; split; [reflexivity | right; eauto]].
  destruct (PyDict.get "ttl" d);
    [discriminate | intros _; eexists; split; [reflexivity | right; eauto]].
Qed.

Lemma load_items_complete d :
  forall st c,
    NoDup (PyDict.keys (file_cache st) ++ d.*1) ->
    loaded_store d = Some c ->
    load_items d st = (Ok tt, set_file_cache (file_cache st ++ c) st).
Proof.
  induction d as [|[k r] d IH]; intros st c Hnd; simpl.
  - intros [= <-]. rewrite app_nil_r. now destruct st.
  - destruct (record_fields r) as [[[p t] l]|] eqn:Hr; [|discriminate].
    destruct (loaded_store d) as [c'|] eqn:Hd; [|discriminate].
    intros [= <-].
    erewrite bind_ok by (apply load_item_some; exact Hr).
    assert (Hfresh : PyDict.get k (file_cache st) = None).
    { apply get_none_not_key. apply NoDup_app in Hnd as (_ & H & _).
      intros Hin. apply (H k Hin). simpl. left. }
    rewrite (set_fresh _ _ _ Hfresh).
    rewrite (IH _ c'); simpl; auto.
    + now rewrite <- app_assoc.
    + unfold PyDict.keys in *. rewrite fmap_app. simpl.
      now rewrite <- app_assoc.
Qed.

Lemma load_items_incomplete d :
  forall st,
    loaded_store d = None ->
    exists e st', load_items d st = (Raise e, st') /\
                  (e = TypeError \/ exists f, e = KeyError f).
Proof.
  induction d as [|[k r] d IH]; intros st; simpl; [discriminate|].
  destruct (record_fields r) as [[[p t] l]|] eqn:Hr.
  - destruct (loaded_store d) eqn:Hd; [discriminate|]. intros _.
    erewrite bind_ok by (apply load_item_some; exact Hr).
    now apply IH.
  - intros _. destruct (load_item_none k r st Hr) as (e & He & Hk).
    exists e, st. split; [|exact Hk]. now erewrite bind_raise by exact He.
Qed.

Lemma load_file_cache_parsed st idx c s j :
  cache_metadata_file st = Some idx ->
  fs st !! idx = Some c ->
  text_decode L c = Some s ->
  json_loads L (PyStr s) = Some j ->
  _load_file_cache L st
  = bind (lift (py_items j)) load_items
      (set_file_cache [] (set_events (events st ++ [EvExists idx; EvOpenRead idx]) st)).
Proof.
  intros Hidx Hf Hs Hj. unfold _load_file_cache.
  erewrite bind_ok by reflexivity. erewrite bind_ok by reflexivity.
  change (cache_metadata_file (set_file_cache [] st)) with (cache_metadata_file st).
  rewrite Hidx.
  erewrite bind_ok by (apply (os_path_exists_some idx c); exact Hf).
  cbv beta iota.
  erewrite bind_ok by (apply open_read_some; exact Hf).
  rewrite Hs. erewrite bind_ok by reflexivity.
  rewrite Hj. erewrite bind_ok by reflexivity.
  unfold set_file_cache, set_events. simpl. now rewrite <- app_assoc.
Qed.

(** X9. Loading an index document that parses. If it is an object, the load
    returns exactly when every value is an object with [path], [timestamp]
    and [ttl]; the store then has one entry per key in document order, with
    [url] set to the key, whatever [url] or other fields the record has;
    otherwise the load raises [KeyError] or [TypeError]. If the document is
    not an object the load raises [AttributeError]. *)
Theorem load_file_cache_of_document (st : state) (idx : string) (c : list byte)
    (s : string) (j : json) :
  cache_metadata_file st = Some idx ->
  fs st !! idx = Some c ->
  text_decode L c = Some s ->
  json_loads L (PyStr s) = Some j ->
  let st0 := set_events (events st ++ [EvExists idx; EvOpenRead idx]) st in
  match j with
  | JDict d =>
      NoDup d.*1 ->
      match loaded_store d with
      | Some sto => _load_file_cache L st = (Ok tt, set_file_cache sto st0)
      | None =>
          exists e st', _load_file_cache L st = (Raise e, st') /\
                        (e = TypeError \/ exists f, e = KeyError f)
      end
  | _ =>
      _load_file_cache L st = (Raise (AttributeError "items"), set_file_cache [] st0)
  end.
Proof.
  intros Hidx Hf Hs Hj st0.
  rewrite (load_file_cache_parsed st idx c s j Hidx Hf Hs Hj).
  destruct j as [| | | | |d]; try reflexivity.
  intros Hnd. erewrite bind_ok by reflexivity.
  destruct (loaded_store d) as [sto|] eqn:Hd.
  - rewrite (load_items_complete d _ sto); [reflexivity | exact Hnd | exact Hd].
  - now apply load_items_incomplete.
Qed.

Lemma load_saved st idx c :
  cache_metadata_file st = Some idx ->
  fs st !! idx = Some (json_dumps L (encode_file_cache c)) ->
  store_wf c ->
  reads_back L (encode_file_cache c) ->
  _load_file_cache L st
  = (Ok tt,
     set_file_cache c (set_events (events st ++ [EvExists idx; EvOpenRead idx]) st)).
Proof.
  intros Hidx Hf [Hnd Hi] (s & Hs & Hj).
  rewrite (load_file_cache_parsed st idx _ s _ Hidx Hf Hs Hj).
  erewrite bind_ok by reflexivity.
  rewrite load_items_encode; simpl; auto.
Qed.
End LoadDocument.

Lemma load_file_cache_of_document_witness :
  (_load_file_cache Demo.libs (save_cache Demo.libs (Demo.cached_state 1030)).2).1
  = Ok tt /\
  exists e st',
    _load_file_cache Demo.libs Demo2.broken_index_state = (Raise e, st') /\
    (e = TypeError \/ exists f, e = KeyError f).
Proof.
  set (st := (save_cache Demo.libs (Demo.cached_state 1030)).2).
  split.
  - pose proof (load_file_cache_of_document Demo.libs st Demo.index_path _ _
                  (encode_file_cache Demo.a_store)
                  eq_refl eq_refl eq_refl eq_refl) as H.
    change (NoDup [Demo.a_url] ->
            _load_file_cache Demo.libs st
            = (Ok tt,
               set_file_cache Demo.a_store
                 (set_events (events st ++ [EvExists Demo.index_path;
                                            EvOpenRead Demo.index_path]) st))) in H.
    rewrite (H (NoDup_singleton _)). reflexivity.
  - pose proof (load_file_cache_of_document Demo.libs Demo2.broken_index_state
                  Demo.index_path _ _ Demo.no_ttl_doc
                  eq_refl eq_refl eq_refl eq_refl) as H.
    apply H. apply NoDup_singleton.
Defined.

(** ** The constructor *)

Section Constructor.
Context (L : Libs).

Lemma try_create_existing_dir h dirs st :
  cache_dir st ∈ dirs ->
  _try_create_cache_dir h dirs st
  = (Ok dirs,
     set_events (events st ++ [EvExists (cache_dir st); EvExists (cache_dir st)]) st).
Proof.
  intros Hin. unfold _try_create_cache_dir, os_path_exists_any, os_path_isdir,
    bind, log, modify, get_state, ret. simpl.
  rewrite (bool_decide_eq_true_2 _ Hin). simpl.
  unfold set_events. simpl. now rewrite <- app_assoc.
Qed.


Lemma try_create_plain_file h dirs c st :
  cache_dir st ∉ dirs ->
  fs st !! cache_dir st = Some c ->
  _try_create_cache_dir h dirs st
  = (Raise (Exception_ (cache_dir st +:+ " exists, but is not a directory.")),
     set_events (events st ++ [EvExists (cache_dir st); EvExists (cache_dir st)]) st).
Proof.
  intros Hin Hf. unfold _try_create_cache_dir, os_path_exists_any, os_path_isdir,
    bind, log, modify, get_state, ret, raise. simpl.
  rewrite (bool_decide_eq_false_2 _ Hin), Hf. simpl.
  unfold set_events. simpl. now rewrite <- app_assoc.
Qed.

(** X10. When the path of the cache directory is taken by a plain file, the
    constructor raises "... exists, but is not a directory." before it looks
    for the index: no directory is made, no file is opened, and the files
    and the store are as before. *)
Theorem init_refuses_plain_file (h : host) (dirs : gset string) (c : list byte)
    (st : state) :
  let dir := _get_cache_dir h in
  dir ∉ dirs ->
  fs st !! dir = Some c ->
  __init__ L h dirs st
  = (Raise (Exception_ (dir +:+ " exists, but is not a directory.")),
     mkState (fs st) (now st) (uuid_count st)
             (events st ++ [EvExists dir; EvExists dir]) dir
             (Some (os_path_join dir "file_cache.json")) (file_cache st)).
Proof.
  intros dir Hin Hf. unfold __init__. fold dir.
  erewrite bind_ok by reflexivity.
  erewrite bind_raise; [reflexivity|].
  rewrite (try_create_plain_file h dirs c); [reflexivity | exact Hin | exact Hf].
Qed.


Lemma init_saved_run (h : host) (dirs : gset string)
    (c : list (string * CachedFile)) (st : state) :
  let dir := _get_cache_dir h in
  let idx := os_path_join dir "file_cache.json" in
  dir ∈ dirs ->
  fs st !! idx = Some (json_dumps L (encode_file_cache c)) ->
  store_wf c ->
  reads_back L (encode_file_cache c) ->
  __init__ L h dirs st
  = (Ok dirs,
     mkState (fs st) (now st) (uuid_count st)
             (events st ++ [EvExists dir; EvExists dir; EvExists idx; EvOpenRead idx])
             dir (Some idx) c).
Proof.
  intros dir idx Hin Hf Hwf Hrb. unfold __init__. fold dir. fold idx.
  erewrite bind_ok by reflexivity.
  erewrite bind_ok by (apply try_create_existing_dir; exact Hin).
  erewrite bind_ok.
  2:{ apply (load_saved L _ idx c); [reflexivity | exact Hf | exact Hwf | exact Hrb]. }
  unfold ret, set_events, set_file_cache. simpl. now rewrite <- !app_assoc.
Qed.

(** X12. When the cache directory holds the index document that
    [save_cache] writes for a store (no key twice, every entry under its
    own url), and the json library reads back what it wrote, the
    constructor returns with exactly that store, makes no directory and
    changes no file. *)
Theorem init_restores_saved_store (h : host) (dirs : gset string)
    (c : list (string * CachedFile)) (st : state) :
  let dir := _get_cache_dir h in
  let idx := os_path_join dir "file_cache.json" in
  dir ∈ dirs ->
  fs st !! idx = Some (json_dumps L (encode_file_cache c)) ->
  store_wf c ->
  reads_back L (encode_file_cache c) ->
  let r := __init__ L h dirs st in
  r.1 = Ok dirs /\ file_cache r.2 = c /\ fs r.2 = fs st /\
  cache_dir r.2 = dir /\ cache_metadata_file r.2 = Some idx.
Proof.
  intros dir idx Hin Hf Hwf Hrb. cbv zeta.
  rewrite (init_saved_run h dirs c st Hin Hf Hwf Hrb). simpl. auto.
Qed.
End Constructor.

Lemma init_refuses_plain_file_witness :
  (__init__ Demo.libs Demo2.plain_host ∅
     (Demo2.blank_state {[ "/home/u/.ust_cache" := [] ]})).1
  = Raise (Exception_ "/home/u/.ust_cache exists, but is not a directory.").
Proof.
  rewrite (init_refuses_plain_file Demo.libs Demo2.plain_host ∅ []
             (Demo2.blank_state {[ "/home/u/.ust_cache" := [] ]})).
  - reflexivity.
  - apply not_elem_of_empty.
  - reflexivity.
Defined.


Lemma init_restores_saved_store_witness :
  let st := Demo2.blank_state
              {[ Demo2.home_index :=
                   json_dumps Demo.libs (encode_file_cache Demo.a_store) ]} in
  let r := __init__ Demo.libs Demo2.plain_host {[ Demo2.home_dir ]} st in
  r.1 = Ok {[ Demo2.home_dir ]} /\ file_cache r.2 = Demo.a_store.
Proof.
  assert (Hw : store_wf Demo.a_store).
  { split; [apply NoDup_singleton | repeat constructor]. }
  assert (Hr : reads_back Demo.libs (encode_file_cache Demo.a_store)).
  { exists (Demo.print (encode_file_cache Demo.a_store)).
    split; vm_compute; reflexivity. }
  destruct (init_restores_saved_store Demo.libs Demo2.plain_host
              {[ Demo2.home_dir ]} Demo.a_store
              (Demo2.blank_state
                 {[ Demo2.home_index :=
                      json_dumps Demo.libs (encode_file_cache Demo.a_store) ]}))
    as (H1 & H2 & _); auto.
  apply elem_of_singleton. reflexivity.
Defined.

(** ** After a miss that went through, and after an eviction that did not *)

Section Sequences.
Context (L : Libs).

Lemma cold_miss_run u idx c j t l st :
  PyDict.get u (file_cache st) = None ->
  cache_metadata_file st = Some idx ->
  curl_perform L u = (c, None) ->
  parsed L c = Ok j ->
  metadata_fields j = Some (t, l) ->
  let p := os_path_join (cache_dir st) (uuid4 L (uuid_count st)) in
  let fc := file_cache st ++ [(u, mkCachedFile u (JStr p) t l)] in
  let st2 :=
    set_fs (<[idx := json_dumps L (encode_file_cache fc)]> (<[p := c]> (fs st)))
      (set_events (events st ++ [EvDownload u p; EvOpenRead p; EvOpenRead p;
                                 EvDump idx])
         (set_file_cache fc (set_uuid_count (S (uuid_count st)) st))) in
  only_reads (JStr p) st2 (get_from_url L u st).2 /\
  (p <> idx -> (get_from_url L u st).1 = Ok j).
Proof.
  intros Hg Hidx Hc Hp Hm p fc st2.
  pose proof (cold_miss_path L u idx c j t l st Hg Hidx Hc Hp Hm) as Hpath.
  cbv zeta in Hpath. fold p in Hpath. fold fc in Hpath. fold st2 in Hpath.
  assert (E : get_from_url L u st
              = bind (_read_cached_file L (JStr p))
                     (fun fc => of_option (json_loads L fc) JSONDecodeError) st2).
  { unfold get_from_url. erewrite bind_ok by exact Hpath. reflexivity. }
  rewrite E. split.
  - rewrite read_then_parse_state. apply read_cached_file_only_reads.
  - intros Hne. rewrite <- Hp. apply read_then_parse_some. simpl.
    rewrite lookup_insert_ne by congruence. apply lookup_insert_eq.
Qed.

Lemma store_wf_snoc c u cf :
  store_wf c -> PyDict.get u c = None -> url cf = u -> store_wf (c ++ [(u, cf)]).
Proof.
  intros [Hnd Hi] Hg Hu. split.
  - unfold PyDict.keys in *. rewrite fmap_app. simpl.
    apply NoDup_app. split; [exact Hnd|]. split.
    + intros x Hx Hx'. apply list_elem_of_singleton in Hx'. subst x.
      apply get_none_not_key in Hg. now apply Hg.
    + apply NoDup_singleton.
  - apply Forall_app. split; [exact Hi|]. repeat constructor. exact Hu.
Qed.

(** X13. The store survives a restart. After a miss that went through in an
    instance made for a host, a new instance constructed for the same host
    from the files the call left, whatever store, trace, clock and
    attributes the state it starts from holds (the json library reading
    back what it wrote), returns with the store the first instance had, the
    new entry included, and changes no file. *)
Theorem restart_after_miss (h : host) (dirs : gset string) (u : string)
    (c : list byte) (j t l : json) (st s0 : state) :
  cache_dir st = _get_cache_dir h ->
  cache_metadata_file st = Some (os_path_join (cache_dir st) "file_cache.json") ->
  _get_cache_dir h ∈ dirs ->
  store_wf (file_cache st) ->
  PyDict.get u (file_cache st) = None ->
  curl_perform L u = (c, None) ->
  parsed L c = Ok j ->
  metadata_fields j = Some (t, l) ->
  let st' := (get_from_url L u st).2 in
  reads_back L (encode_file_cache (file_cache st')) ->
  fs s0 = fs st' ->
  let r := __init__ L h dirs s0 in
  r.1 = Ok dirs /\ file_cache r.2 = file_cache st' /\ fs r.2 = fs st' /\
  PyDict.get u (file_cache r.2)
  = Some (mkCachedFile u
            (JStr (os_path_join (cache_dir st) (uuid4 L (uuid_count st)))) t l).
Proof.
  intros Hdir Hidx Hin Hwf Hg Hc Hp Hm st' Hrb Hs0. cbv zeta.
  destruct (cold_miss_run u _ c j t l st Hg Hidx Hc Hp Hm)
    as ((evs & Hst & _) & _).
  fold st' in Hst.
  set (p := os_path_join (cache_dir st) (uuid4 L (uuid_count st))) in *.
  set (fc := file_cache st ++ [(u, mkCachedFile u (JStr p) t l)]) in *.
  assert (Hfc : file_cache st' = fc) by (rewrite Hst; reflexivity).
  assert (Hfs : fs s0 !! os_path_join (_get_cache_dir h) "file_cache.json"
                = Some (json_dumps L (encode_file_cache fc))).
  { rewrite Hs0, Hst. simpl. rewrite <- Hdir. apply lookup_insert_eq. }
  rewrite Hfc in Hrb |- *.
  rewrite (init_saved_run L h dirs fc s0 Hin Hfs); [| | exact Hrb].
  - simpl. repeat split; auto.
    unfold fc. rewrite <- (set_fresh _ _ _ Hg). apply get_set_eq.
  - apply store_wf_snoc; [exact Hwf | exact Hg | reflexivity].
Qed.

(** X14. A retry after the failed eviction goes through. With every entry
    under its own url and no key twice: the first call on an expired entry
    removes it and raises; a second call for the same url is then a miss,
    and when the transfer succeeds and the document carries its metadata it
    starts one transfer, registers the fresh entry and returns the
    document. *)
Theorem retry_after_failed_eviction (u p idx : string) (cf : CachedFile)
    (t0 l0 : Z) (c0 c : list byte) (j t l : json) (st : state) :
  store_wf (file_cache st) ->
  PyDict.get u (file_cache st) = Some cf ->
  timestamp cf = JInt t0 -> ttl cf = JInt l0 -> now st - t0 > l0 ->
  path cf = JStr p ->
  fs st !! p = Some c0 ->
  cache_metadata_file st = Some idx ->
  curl_perform L u = (c, None) ->
  parsed L c = Ok j ->
  metadata_fields j = Some (t, l) ->
  let p' := os_path_join (cache_dir st) (uuid4 L (uuid_count st)) in
  let st1 := (get_from_url L u st).2 in
  let r2 := get_from_url L u st1 in
  (get_from_url L u st).1 = Raise (AttributeError "_cache_file") /\
  PyDict.get u (file_cache r2.2) = Some (mkCachedFile u (JStr p') t l) /\
  count_downloads r2.2 = S (count_downloads st) /\
  (p' <> idx -> r2.1 = Ok j).
Proof.
  intros [Hnd Hi] Hg Ht0 Hl0 Hexp Hp Hf Hidx Hc Hpj Hm p' st1 r2.
  pose proof (get_inv_url u cf _ Hi Hg) as Hu.
  pose proof (expired_hit_raises L u cf t0 l0 p c0 st Hg Hu Ht0 Hl0 Hexp Hp Hf) as E1.
  unfold r2, st1. rewrite E1. cbn [fst snd].
  set (s1 := set_file_cache _ _).
  assert (Hg1 : PyDict.get u (file_cache s1) = None) by (apply get_del_eq; exact Hnd).
  destruct (cold_miss_run u idx c j t l s1 Hg1 Hidx Hc Hpj Hm) as (Hr & Hres).
  change (os_path_join (cache_dir s1) (uuid4 L (uuid_count s1))) with p' in Hr, Hres.
  destruct (only_reads_counts _ _ _ Hr) as (_ & H2 & H3 & _).
  split; [reflexivity|]. rewrite H2, H3. split; [|split; [|exact Hres]].
  - simpl. rewrite <- (set_fresh _ _ _ Hg1). apply get_set_eq.
  - unfold count_downloads. simpl. rewrite !filter_app, !length_app. simpl. lia.
Qed.
End Sequences.

Lemma restart_after_miss_witness :
  let st' := (get_from_url Demo2.libs2 Demo.a_url Demo2.fresh_instance).2 in
  let r := __init__ Demo2.libs2 Demo2.plain_host {[ Demo2.home_dir ]}
             (Demo2.blank_state (fs st')) in
  r.1 = Ok {[ Demo2.home_dir ]} /\ file_cache r.2 = Demo2.fetched_store.
Proof.
  assert (Hw : store_wf (file_cache Demo2.fresh_instance)).
  { split; constructor. }
  assert (Hp : parsed Demo2.libs2
                 (String.list_byte_of_string (Demo.print Demo.good_doc))
               = Ok Demo.good_doc) by (vm_compute; reflexivity).
  assert (Hr : reads_back Demo2.libs2
                 (encode_file_cache
                    (file_cache
                       (get_from_url Demo2.libs2 Demo.a_url Demo2.fresh_instance).2))).
  { exists (Demo.print (encode_file_cache Demo2.fetched_store)).
    split; vm_compute; reflexivity. }
  destruct (restart_after_miss Demo2.libs2 Demo2.plain_host {[ Demo2.home_dir ]}
              Demo.a_url _ Demo.good_doc (JInt 1000) (JInt 60)
              Demo2.fresh_instance
              (Demo2.blank_state
                 (fs (get_from_url Demo2.libs2 Demo.a_url Demo2.fresh_instance).2))
              eq_refl eq_refl
              (proj2 (elem_of_singleton _ _) eq_refl) Hw eq_refl eq_refl Hp
              eq_refl Hr eq_refl) as (H1 & H2 & _).
  split; [exact H1|]. rewrite H2. vm_compute. reflexivity.
Defined.

Lemma retry_after_failed_eviction_witness :
  let st1 := (get_from_url Demo.libs Demo.a_url (Demo.cached_state 4600)).2 in
  (get_from_url Demo.libs Demo.a_url (Demo.cached_state 4600)).1
  = Raise (AttributeError "_cache_file") /\
  (get_from_url Demo.libs Demo.a_url st1).1 = Ok Demo.good_doc.
Proof.
  assert (Hw : store_wf (file_cache (Demo.cached_state 4600))).
  { split; [apply NoDup_singleton | repeat constructor]. }
  assert (Hgt : now (Demo.cached_state 4600) - 1000 > 60) by (simpl; lia).
  assert (Hp : parsed Demo.libs
                 (String.list_byte_of_string (Demo.print Demo.good_doc))
               = Ok Demo.good_doc) by (vm_compute; reflexivity).
  destruct (retry_after_failed_eviction Demo.libs Demo.a_url "/cache/old"
              Demo.index_path Demo.a_entry 1000 60 _ _ Demo.good_doc
              (JInt 1000) (JInt 60) (Demo.cached_state 4600)
              Hw eq_refl eq_refl eq_refl Hgt eq_refl eq_refl eq_refl eq_refl
              Hp eq_refl) as (H1 & _ & _ & H4).
  split; [exact H1|]. apply H4. vm_compute. discriminate.
Defined.

(** ** What reading and fetching never touch *)

#[local] Instance file_kept_preorder q : PreOrder (file_kept q).
Proof.
  split.
  - intros st _. auto.
  - intros a b c H1 H2 Ha. destruct (H1 Ha) as [M1 F1].
    destruct H2 as [M2 F2]; [congruence|]. split; congruence.
Qed.

Lemma quiet_file_kept q a b : quiet a b -> file_kept q a b.
Proof. intros ((_ & M & _) & F & _) _. split; [exact M | now rewrite F]. Qed.

Section Untouched.
Context (L : Libs).

(** X15. A file of fewer than two bytes, the empty file included, is never
    taken for a compressed one: its bytes are read as text, and bz2 is not
    called. *)
Theorem short_file_is_read_as_text (p : string) (c : list byte) (st : state) :
  fs st !! p = Some c ->
  (length c < 2)%nat ->
  _read_cached_file L (JStr p) st
  = (match text_decode L c with
     | Some s => Ok (PyStr s)
     | None => Raise UnicodeDecodeError
     end,
     set_events (events st ++ [EvOpenRead p; EvOpenRead p]) st).
Proof.
  intros Hf Hlen. rewrite (read_cached_file_some L p c st Hf). unfold decoded.
  destruct (bytes_eqb (take 2 c) bz_magic) eqn:E; [|reflexivity].
  apply bytes_eqb_eq in E. apply (f_equal length) in E.
  rewrite length_take in E. change (length bz_magic) with 2%nat in E. lia.
Qed.

(** X16. Reading a cached file and reading its metadata, whatever the path
    and whatever the outcome, change no file, no attribute of the cache and
    not the store; they start no transfer, write no index and remove
    nothing. *)
Theorem reading_changes_nothing (p : json) (st : state) :
  quiet st (_read_cached_file L p st).2 /\
  quiet st (_get_file_metadata L p st).2.
Proof.
  split; [apply read_cached_file_quiet | apply get_file_metadata_quiet].
Qed.

Lemma save_cache_file_kept q : frame (file_kept q) (save_cache L).
Proof.
  intros st Hne. unfold save_cache, bind, get_state, log, modify. simpl.
  destruct (cache_metadata_file st) as [idx|] eqn:E; simpl; rewrite ?E; [|auto].
  split; [reflexivity|]. apply lookup_insert_ne. congruence.
Qed.

Lemma download_file_kept q u f : f <> q -> frame (file_kept q) (_download L u f).
Proof.
  intros Hne st _. destruct (download_any L u f st) as (r & c & ->). simpl.
  split; [reflexivity|]. now apply lookup_insert_ne.
Qed.

Lemma remove_expired_file_kept q cf :
  path cf <> JStr q -> frame (file_kept q) (_remove_expired_file cf).
Proof.
  intros Hne. unfold _remove_expired_file, os_remove.
  destruct (path cf) as [| | |s| |]; frame_auto;
    unfold file_kept; simpl; intros; (split; [reflexivity|]);
    try reflexivity.
  apply lookup_delete_ne. congruence.
Qed.

Lemma download_and_cache_file_kept q u st :
  q <> os_path_join (cache_dir st) (uuid4 L (uuid_count st)) ->
  file_kept q st (_download_and_cache_file L u st).2.
Proof.
  intros Hq. unfold _download_and_cache_file.
  erewrite bind_ok by reflexivity. cbv beta zeta.
  erewrite bind_ok by reflexivity. cbv beta zeta.
  set (p := os_path_join (cache_dir st) (uuid4 L (uuid_count st))) in *.
  transitivity (set_uuid_count (S (uuid_count st)) st); [intros _; auto|].
  apply bind_at; [apply _| |].
  { apply download_file_kept. congruence. }
  intros _. frame_auto; try apply save_cache_file_kept;
    try (apply (frame_weaken quiet);
         [apply quiet_file_kept | apply get_file_metadata_quiet]).
  unfold file_kept; simpl; auto.
Qed.

(** X17. A call of [get_from_url] changes at most three paths: the file it
    downloads to, the index document, and the file of the entry it evicts.
    Any other path holds after the call what it held before, whatever the
    outcome. *)
Theorem get_from_url_touches_only_its_files (u q : string) (st : state) :
  q <> os_path_join (cache_dir st) (uuid4 L (uuid_count st)) ->
  cache_metadata_file st <> Some q ->
  (forall cf, PyDict.get u (file_cache st) = Some cf -> path cf <> JStr q) ->
  fs (get_from_url L u st).2 !! q = fs st !! q.
Proof.
  intros Hq Hidx Hcf.
  assert (K : file_kept q st (get_from_url L u st).2); [|now apply K].
  unfold get_from_url. apply bind_at; [apply _| |].
  2:{ intros p. frame_auto; apply (frame_weaken quiet);
        try apply quiet_file_kept; apply read_cached_file_quiet. }
  unfold _get_cached_file_path. erewrite bind_ok by reflexivity.
  apply bind_at; [apply _| |].
  2:{ intros _. unfold file_cache_getitem. frame_auto. }
  destruct (PyDict.get u (file_cache st)) as [cf|] eqn:Hg.
  - assert (Hm : PyDict.mem u (file_cache st) = true) by (apply mem_get; eauto).
    rewrite Hm.
    erewrite bind_ok by (apply file_cache_getitem_some; exact Hg).
    assert (F : frame (file_kept q)
                  (expired <- is_expired cf;;
                   (if negb expired then ret tt
                    else _remove_expired_file cf;; _cache_file u))).
    { unfold is_expired, time_time, _cache_file. frame_auto.
      apply remove_expired_file_kept. now apply Hcf. }
    apply F.
  - unfold PyDict.mem. rewrite Hg. now apply download_and_cache_file_kept.
Qed.

(** X18. Expiry only moves one way with the clock: for an entry with
    integer fields, if it is expired at one time it is expired at every
    later time, and if it is fresh at one time it was fresh at every
    earlier one. *)
Theorem expiry_is_monotone (cf : CachedFile) (t l : Z) (st1 st2 : state) :
  timestamp cf = JInt t -> ttl cf = JInt l ->
  now st1 <= now st2 ->
  ((is_expired cf st1).1 = Ok true -> (is_expired cf st2).1 = Ok true) /\
  ((is_expired cf st2).1 = Ok false -> (is_expired cf st1).1 = Ok false).
Proof.
  intros Ht Hl Hle.
  rewrite (is_expired_int cf st1 t l Ht Hl), (is_expired_int cf st2 t l Ht Hl).
  simpl. split; intros [= H]; f_equal.
  - apply Z.ltb_lt in H. apply Z.ltb_lt. lia.
  - apply Z.ltb_ge in H. apply Z.ltb_ge. lia.
Qed.
End Untouched.

Lemma short_file_is_read_as_text_witness :
  (_read_cached_file Demo.libs (JStr "/cache/one")
     (Demo2.blank_state {[ "/cache/one" := [x42] ]})).1
  = match text_decode Demo.libs [x42] with
    | Some s => Ok (PyStr s)
    | None => Raise UnicodeDecodeError
    end.
Proof.
  assert (Hf : fs (Demo2.blank_state {[ "/cache/one" := [x42] ]}) !! "/cache/one"
               = Some [x42]) by (vm_compute; reflexivity).
  assert (Hlen : (length [x42] < 2)%nat) by (simpl; lia).
  rewrite (short_file_is_read_as_text Demo.libs "/cache/one" [x42]
             (Demo2.blank_state {[ "/cache/one" := [x42] ]}) Hf Hlen).
  reflexivity.
Defined.

Lemma get_from_url_touches_only_its_files_witness :
  fs (get_from_url Demo.libs Demo.b_url (Demo.cached_state 4600)).2 !! "/cache/old"
  = Some (String.list_byte_of_string (Demo.print Demo.good_doc)).
Proof.
  rewrite (get_from_url_touches_only_its_files Demo.libs Demo.b_url "/cache/old"
             (Demo.cached_state 4600)).
  - reflexivity.
  - vm_compute. discriminate.
  - discriminate.
  - intros cf. vm_compute. discriminate.
Defined.

Lemma expiry_is_monotone_witness :
  (is_expired Demo.a_entry (Demo.cached_state 4600)).1 = Ok true.
Proof.
  assert (Hle : now (Demo.cached_state 1061) <= now (Demo.cached_state 4600))
    by (simpl; lia).
  destruct (expiry_is_monotone Demo.a_entry 1000 60 (Demo.cached_state 1061)
              (Demo.cached_state 4600) eq_refl eq_refl Hle) as [H _].
  apply H. reflexivity.
Defined.
